(** * botobackoff: retry / backoff wrapper around a boto3 client

    Shallow embedding of [botobackoff/botobackoff.py]: the [botobackoff]
    decorator with its retry loop, and the [BotoBackoff] proxy class
    ([__init__], [with_options], [__getattr__], [__enter__], [__exit__]).

    Modelling choices
    - Python lists are mutable objects with identity: the code lists, the
      module's own table included, live in a store ([heap]) and are passed
      around by reference ([loc]).
    - [max_retries], [max_retries_before_backoff] and the attempt counter
      are Python ints ([Z]).  [interval_seconds], [backoff_rate] and
      [jitter] are Python numbers: an int of any size or a float, that is,
      an IEEE 754 binary64 value, with the arithmetic of Python on them
      (ints are exact, a float operation rounds to nearest even, an int
      met by a float is converted first and [OverflowError] is raised when
      it is too large).
    - The outside world (the remote service, the clock, the state of the
      ambient random generator) is a type [W]; an underlying call is a
      function [W -> outcome * W].  The underlying call does not hold a
      reference to the code lists, so it leaves the store alone.
    - What the platform provides is taken as it is: [random.random],
      [time.sleep] and the power of a float are parameters.
    - [log] is ghost instrumentation: it records every underlying call and
      every sleep, newest first. *)

From Stdlib Require Import ZArith QArith Qpower Lia SpecFloat.
From stdpp Require Import gmap strings list.

Local Open Scope Z_scope.

(** ** The built-in table *)

(** the list that the module binds to the name [DEFAULT_RETRY_ERROR_CODES]
    when it is imported *)
Definition DEFAULT_RETRY_ERROR_CODES : list string :=
  [ "ThrottlingException";
    "TooManyRequestsException";
    "ServiceUnavailableException";
    "RequestLimitExceeded";
    "RequestThrottled";
    "RequestThrottledException";
    "ProvisionedThroughputExceededException";
    "LimitExceededException";
    "EndpointConnectionError";
    "ConnectTimeoutError";
    "Unavailable";
    "InternalFailure";
    "InternalError" ]%string.

(** ** Exceptions *)

(** [e.response] of a [ClientError]: a dict that normally has an ["Error"]
    entry, itself a dict that normally has ["Code"] and ["Message"]. *)
Record error_dict := {
  Code : option string;
  Message : option string
}.

Record client_error := {
  operation_name : string;
  response_Error : option error_dict
}.

(** [ClientError] stands for [botocore.exceptions.ClientError] and its
    subclasses (what [except ClientError] catches); [Exception] for every
    other exception class. *)
Inductive exn :=
| ClientError (e : client_error)
| Exception (cls msg : string).

(** a computation that may raise: the exception, or the value *)
Definition bind {A B : Type} (c : exn + A) (k : A -> exn + B) : exn + B :=
  match c with
  | inl e => inl e
  | inr a => k a
  end.

Notation "'do' x <- c ; k" := (bind c (fun x => k))
  (at level 10, x name, c at level 100, k at level 200).

(** an exception of a class other than [ClientError] *)
Definition builtin (e : exn) : Prop := exists cls msg, e = Exception cls msg.

(** What the platform's own functions raise: an exception of a built-in
    class, given by the name of the class and the message. *)
Definition builtin_error : Type := string * string.

Definition raised (b : builtin_error) : exn := Exception b.1 b.2.

Definition of_platform {A : Type} (c : builtin_error + A) : exn + A :=
  match c with
  | inl b => inl (raised b)
  | inr a => inr a
  end.

(** ** Numbers *)

(** A Python number: an int, or a float (binary64: a mantissa of 53 bits,
    infinities at exponent 1024). *)
Inductive number :=
| PyInt (z : Z)
| PyFloat (x : spec_float).

Definition float_add : spec_float -> spec_float -> spec_float := SFadd 53 1024.
Definition float_sub : spec_float -> spec_float -> spec_float := SFsub 53 1024.
Definition float_mul : spec_float -> spec_float -> spec_float := SFmul 53 1024.

(** [float(z)]: the nearest float, ties to even; an int beyond the largest
    float raises [OverflowError] *)
Definition float_of_int (z : Z) : exn + spec_float :=
  match binary_normalize 53 1024 z 0 false with
  | S754_infinity _ => inl (Exception "OverflowError" "int too large to convert to float")
  | x => inr x
  end.

(** the float that an operand of a float operation stands for *)
Definition as_float (a : number) : exn + spec_float :=
  match a with
  | PyInt z => float_of_int z
  | PyFloat x => inr x
  end.

(** [-a] *)
Definition py_neg (a : number) : number :=
  match a with
  | PyInt z => PyInt (- z)
  | PyFloat x => PyFloat (SFopp x)
  end.

(** [a + b], [a - b], [a * b]: exact on two ints, a float operation as
    soon as one operand is a float *)
Definition py_add (a b : number) : exn + number :=
  match a, b with
  | PyInt x, PyInt y => inr (PyInt (x + y))
  | _, _ => do x <- as_float a; do y <- as_float b; inr (PyFloat (float_add x y))
  end.

Definition py_sub (a b : number) : exn + number :=
  match a, b with
  | PyInt x, PyInt y => inr (PyInt (x - y))
  | _, _ => do x <- as_float a; do y <- as_float b; inr (PyFloat (float_sub x y))
  end.

Definition py_mul (a b : number) : exn + number :=
  match a, b with
  | PyInt x, PyInt y => inr (PyInt (x * y))
  | _, _ => do x <- as_float a; do y <- as_float b; inr (PyFloat (float_mul x y))
  end.

(** truth value of a number: zero is falsy, [0], [0.0] and [-0.0] alike *)
Definition truthy_number (a : number) : bool :=
  match a with
  | PyInt z => negb (z =? 0)
  | PyFloat (S754_zero _) => false
  | PyFloat _ => true
  end.

(** the rational that a finite float is *)
Definition float_value (x : spec_float) : option Q :=
  match x with
  | S754_zero _ => Some 0%Q
  | S754_finite s m e => Some (inject_Z (cond_Zopp s (Zpos m)) * 2 ^ e)%Q
  | _ => None
  end.

Definition number_value (a : number) : option Q :=
  match a with
  | PyInt z => Some (inject_Z z)
  | PyFloat x => float_value x
  end.

(** ** The store of list objects *)

Definition loc := nat.

(** where the list bound to [DEFAULT_RETRY_ERROR_CODES] lives: the module
    creates it when it is imported, before any other list of this model *)
Definition table : loc := 0%nat.

Definition read (h : gmap loc (list string)) (l : loc) : list string :=
  default [] (h !! l).

(** [code in lst] *)
Definition py_in (code : string) (lst : list string) : bool :=
  bool_decide (code ∈ lst).

(** truth value of a list object: empty lists are falsy *)
Definition truthy_list (lst : list string) : bool :=
  match lst with [] => false | _ :: _ => true end.

(** truth value of an int: zero is falsy *)
Definition truthy_Z (z : Z) : bool := negb (z =? 0).

(** [x or y] where [x] may be [None] *)
Definition or_Z (x : option Z) (y : Z) : Z :=
  match x with
  | Some z => if truthy_Z z then z else y
  | None => y
  end.

Definition or_number (x : option number) (y : number) : number :=
  match x with
  | Some a => if truthy_number a then a else y
  | None => y
  end.

Definition or_list (h : gmap loc (list string)) (x : option loc) (y : loc) : loc :=
  match x with
  | Some l => if truthy_list (read h l) then l else y
  | None => y
  end.

Inductive event :=
| EvCall
| EvSleep (seconds : number).

Definition is_call (ev : event) : bool :=
  match ev with EvCall => true | EvSleep _ => false end.

Definition is_sleep (ev : event) : bool :=
  match ev with EvCall => false | EvSleep _ => true end.

Definition calls (lg : list event) : nat := length (filter is_call lg).
Definition sleeps (lg : list event) : list event := filter is_sleep lg.

Section Model.

(** [V]: what the client's operations return and what its plain attributes
    hold; [Args]: the keyword arguments of a call; [W]: the outside world. *)
Context {V Args W : Type}.

(** [random.random()]: a draw from the ambient generator, which is part of
    the world. *)
Variable random_random : W -> spec_float * W.

(** [x ** y] on floats, as the platform's C library computes it and as
    Python hands it on, [OverflowError] and [ZeroDivisionError] included. *)
Variable float_pow : spec_float -> spec_float -> builtin_error + spec_float.

(** [time.sleep(secs)] of the platform: the world after the sleep, or the
    exception it raises ([ValueError] for a negative length, [OverflowError]
    for one that is out of range). *)
Variable sleeping : number -> W -> builtin_error + W.

Inductive value :=
| PyNone
| PyVal (v : V).

Inductive outcome :=
| Return (v : value)
| Raise (e : exn).

Definition callable := Args -> W -> outcome * W.

Record state := {
  heap : gmap loc (list string);
  world : W;
  log : list event
}.

Definition set_heap (h : gmap loc (list string)) (s : state) : state :=
  {| heap := h; world := world s; log := log s |}.

Definition set_world (w : W) (s : state) : state :=
  {| heap := heap s; world := w; log := log s |}.

Definition record (ev : event) (s : state) : state :=
  {| heap := heap s; world := world s; log := ev :: log s |}.

(** a new list object [[]] *)
Definition new_list (s : state) : loc * state :=
  let l := fresh (dom (heap s)) in
  (l, set_heap (<[l := []]> (heap s)) s).

(** [x or []] *)
Definition or_new_list (x : option loc) (s : state) : loc * state :=
  match x with
  | Some l => if truthy_list (read (heap s) l) then (l, s) else new_list s
  | None => new_list s
  end.

(** [lst.extend(more)]: in place *)
Definition extend (l : loc) (more : list string) (s : state) : state :=
  set_heap (<[l := read (heap s) l ++ more]> (heap s)) s.

(** [time.sleep(secs)] *)
Definition time_sleep (secs : number) (s : state) : exn + state :=
  match sleeping secs (world s) with
  | inl b => inl (raised b)
  | inr w => inr (record (EvSleep secs) (set_world w s))
  end.

(** [base ** exponent] for an int exponent: exact on an int base when the
    exponent is not negative, the power of floats otherwise *)
Definition py_pow (base : number) (exponent : Z) : exn + number :=
  match base with
  | PyInt b =>
      if 0 <=? exponent then inr (PyInt (b ^ exponent))
      else do x <- float_of_int b; do y <- float_of_int exponent;
           do p <- of_platform (float_pow x y); inr (PyFloat p)
  | PyFloat x =>
      do y <- float_of_int exponent; do p <- of_platform (float_pow x y);
      inr (PyFloat p)
  end.

(** [random.uniform(a, b)], which is [a + (b - a) * self.random()] *)
Definition random_uniform (a b : number) (w : W) : (exn + number) * W :=
  match py_sub b a with
  | inl e => (inl e, w)
  | inr width =>
      let '(r, w') := random_random w in
      (do scaled <- py_mul width (PyFloat r); py_add a scaled, w')
  end.

(** ** The decorator [botobackoff] *)

(** keyword arguments of [botobackoff(...)] and of [BotoBackoff(...)] *)
Record options := {
  interval_seconds : number;
  max_retries : Z;
  backoff_rate : number;
  jitter : number;
  max_retries_before_backoff : Z;
  ignore_error_codes : option loc;
  added_error_codes : option loc
}.

(** the variables [retry_func] closes over *)
Record retry_func := {
  f : callable;
  opts : options;
  retry_on : loc;
  ignore_on : loc
}.

Definition deco (o : options) (fn : callable) (s : state) : retry_func * state :=
  let '(retry_on, s1) := or_new_list (added_error_codes o) s in
  let s2 := extend retry_on (read (heap s1) table) s1 in
  let '(ignore_on, s3) := or_new_list (ignore_error_codes o) s2 in
  ({| f := fn; opts := o; retry_on := retry_on; ignore_on := ignore_on |}, s3).

(** [interval_seconds * backoff_rate ** (_attempts - max_retries_before_backoff)
     * (1 + random.uniform(-jitter, jitter))], evaluated from left to right:
    the value or the exception, and the world after the draw if it came to
    it *)
Definition sleep_time (o : options) (_attempts : Z) (w : W) : (exn + number) * W :=
  match (do power <- py_pow (backoff_rate o) (_attempts - max_retries_before_backoff o);
         py_mul (interval_seconds o) power) with
  | inl e => (inl e, w)
  | inr base =>
      let '(u, w') := random_uniform (py_neg (jitter o)) (jitter o) w in
      (do u <- u; do factor <- py_add (PyInt 1) u; py_mul base factor, w')
  end.

(** one turn of [while True] *)
Inductive turn :=
| Finished (r : outcome) (s : state)
| Retrying (_attempts : Z) (s : state).

(** the body of [if error_code in retry_on and not _attempts > max_retries] *)
Definition backoff (o : options) (_attempts : Z) (s : state) : turn :=
  if _attempts >? max_retries_before_backoff o then
    let '(d, w) := sleep_time o _attempts (world s) in
    match d with
    | inl e => Finished (Raise e) (set_world w s)
    | inr secs =>
        match time_sleep secs (set_world w s) with
        | inl e => Finished (Raise e) (set_world w s)
        | inr s' => Retrying (_attempts + 1) s'
        end
    end
  else Retrying (_attempts + 1) s.

Definition loop_body (rf : retry_func) (args : Args) (_attempts : Z) (s : state) : turn :=
  let '(r, w) := f rf args (world s) in
  let s1 := record EvCall (set_world w s) in
  match r with
  | Return v => Finished (Return v) s1
  | Raise (ClientError e) =>
      match response_Error e with
      | None => Finished (Raise (Exception "KeyError" "Error")) s1
      | Some d =>
          match Code d with
          | None => Finished (Raise (Exception "KeyError" "Code")) s1
          | Some error_code =>
              if py_in error_code (read (heap s1) (ignore_on rf)) then
                Finished (Return PyNone) s1
              else if py_in error_code (read (heap s1) (retry_on rf))
                      && negb (_attempts >? max_retries (opts rf)) then
                backoff (opts rf) _attempts s1
              else
                Finished (Raise (ClientError e)) s1
          end
      end
  | Raise e => Finished (Raise e) s1
  end.

(** calling [retry_func]: the loop is entered with [_attempts = 0]; the
    result is [None] when [fuel] turns were not enough to leave it. *)
Fixpoint retry_loop (fuel : nat) (rf : retry_func) (args : Args)
         (_attempts : Z) (s : state) : option (outcome * state) :=
  match fuel with
  | O => None
  | S fuel' =>
      match loop_body rf args _attempts s with
      | Finished r s' => Some (r, s')
      | Retrying a' s' => retry_loop fuel' rf args a' s'
      end
  end.

Definition call_retry_func (fuel : nat) (rf : retry_func) (args : Args)
           (s : state) : option (outcome * state) :=
  retry_loop fuel rf args 0 s.

(** ** Vocabulary for the statements *)

Definition turn_state (t : turn) : state :=
  match t with Finished _ s => s | Retrying _ s => s end.

(** The three-way decision the handler takes on an error code, as the
    specification names it: the [ignore_on] test comes first. *)
Inductive decision := RETRY | IGNORE | PROPAGATE.

Definition classify (ignore_codes retry_codes : list string) (code : string) : decision :=
  if py_in code ignore_codes then IGNORE
  else if py_in code retry_codes then RETRY
  else PROPAGATE.

(** [e] is a client error whose response carries the code [code] *)
Definition has_code (e : client_error) (code : string) : Prop :=
  exists d, response_Error e = Some d /\ Code d = Some code.

(** in the world of [s], the underlying call raises the client error [e]
    and leaves the world [w'] *)
Definition fails_with (rf : retry_func) (args : Args) (s : state)
           (e : client_error) (w' : W) : Prop :=
  f rf args (world s) = (Raise (ClientError e), w').

(** whatever the world, the underlying call fails with a client error
    whose code is in [retry_on] and not in [ignore_on] *)
Definition always_fails_retryably (rf : retry_func) (args : Args)
           (h : gmap loc (list string)) : Prop :=
  forall w, exists e code w',
    f rf args w = (Raise (ClientError e), w') /\
    has_code e code /\
    code ∈ read h (retry_on rf) /\
    code ∉ read h (ignore_on rf).

(** every delay that a retry with backoff can ask for is computed and slept
    without an exception: for each value of [_attempts] from 0 that is
    above [max_retries_before_backoff] and at most [max_retries], in every
    world *)
Definition pauses_succeed (o : options) : Prop :=
  forall a w,
    0 <= a -> max_retries_before_backoff o < a <= max_retries o ->
    exists d w1 w2, sleep_time o a w = (inr d, w1) /\ sleeping d w1 = inr w2.

(** ** The proxy class [BotoBackoff] *)

(** What [getattr(client, item)] finds: a plain value, or something
    callable. *)
Inductive attribute :=
| Plain (v : V)
| Method (fn : callable).

(** The wrapped client, seen through [getattr]: [None] when the client
    has no such attribute ([getattr] raises [AttributeError]). *)
Definition client := string -> option attribute.

Record BotoBackoff := {
  _client : client;
  _added_backoff_error_codes : loc;
  _ignore_errors : loc;
  _backoff_rate : number;
  _interval_seconds : number;
  _max_retries : Z;
  _jitter : number;
  _max_retries_before_backoff : Z
}.

(** [BotoBackoff.__init__] for a client given as an object (for a service
    name the client is first built by boto3, outside this module). *)
Definition __init__ (c : client) (o : options) (s : state) : BotoBackoff * state :=
  let '(added, s1) := or_new_list (added_error_codes o) s in
  let '(ignored, s2) := or_new_list (ignore_error_codes o) s1 in
  ({| _client := c;
      _added_backoff_error_codes := added;
      _ignore_errors := ignored;
      _backoff_rate := backoff_rate o;
      _interval_seconds := interval_seconds o;
      _max_retries := max_retries o;
      _jitter := jitter o;
      _max_retries_before_backoff := max_retries_before_backoff o |}, s2).

(** keyword arguments of [with_options]: each defaults to [None] *)
Record overrides := {
  ov_interval_seconds : option number;
  ov_max_retries : option Z;
  ov_backoff_rate : option number;
  ov_jitter : option number;
  ov_max_retries_before_backoff : option Z;
  ov_ignore_error_codes : option loc;
  ov_added_error_codes : option loc
}.

Definition with_options (self : BotoBackoff) (ov : overrides) (s : state)
  : BotoBackoff * state :=
  __init__ (_client self)
    {| interval_seconds := or_number (ov_interval_seconds ov) (_interval_seconds self);
       max_retries := or_Z (ov_max_retries ov) (_max_retries self);
       backoff_rate := or_number (ov_backoff_rate ov) (_backoff_rate self);
       jitter := or_number (ov_jitter ov) (_jitter self);
       max_retries_before_backoff :=
         or_Z (ov_max_retries_before_backoff ov) (_max_retries_before_backoff self);
       ignore_error_codes :=
         Some (or_list (heap s) (ov_ignore_error_codes ov) (_ignore_errors self));
       added_error_codes :=
         Some (or_list (heap s) (ov_added_error_codes ov) (_added_backoff_error_codes self)) |}
    s.

(** what [__getattr__] gives back *)
Inductive lookup_result :=
| GotValue (v : V)
| GotCall (rf : retry_func)
| GotError (e : exn).

Definition __getattr__ (self : BotoBackoff) (item : string) (s : state)
  : lookup_result * state :=
  match _client self item with
  | None => (GotError (Exception "AttributeError" item), s)
  | Some (Plain v) => (GotValue v, s)
  | Some (Method fn) =>
      let '(call, s') :=
        deco {| interval_seconds := _interval_seconds self;
                max_retries := _max_retries self;
                backoff_rate := _backoff_rate self;
                jitter := _jitter self;
                max_retries_before_backoff := _max_retries_before_backoff self;
                added_error_codes := Some (_added_backoff_error_codes self);
                ignore_error_codes := Some (_ignore_errors self) |}
             (fun api_kwargs => fn api_kwargs) s in
      (GotCall call, s')
  end.

(** the proxy's configuration as an observer sees it: the scalar fields
    and the contents of the two code lists *)
Definition configuration (self : BotoBackoff) (s : state)
  : number * Z * number * number * Z * list string * list string :=
  (_interval_seconds self, _max_retries self, _backoff_rate self, _jitter self,
   _max_retries_before_backoff self,
   read (heap s) (_added_backoff_error_codes self),
   read (heap s) (_ignore_errors self)).

End Model.

Arguments value : clear implicits.
Arguments outcome : clear implicits.
Arguments state : clear implicits.
Arguments callable : clear implicits.
Arguments retry_func : clear implicits.
Arguments turn : clear implicits.
Arguments attribute : clear implicits.
Arguments client : clear implicits.
Arguments BotoBackoff : clear implicits.
Arguments lookup_result : clear implicits.

(** ** The proxy as a context manager *)

Section ContextManager.

Context {V Args W : Type}.

(** the truth value of what an operation may return, [None] apart *)
Variable truth : V -> bool.

Definition truthy_value (v : value V) : bool :=
  match v with
  | PyNone => false
  | PyVal x => truth x
  end.

(** [__enter__]: [return self] *)
Definition __enter__ (self : BotoBackoff V Args W) (s : state W)
  : BotoBackoff V Args W * state W :=
  (self, s).

(** [__exit__]: [pass], so the method returns [None]; [exc] is the
    exception the block raised, if it raised one *)
Definition __exit__ (self : BotoBackoff V Args W) (exc : option exn) (s : state W)
  : value V * state W :=
  (PyNone, s).

(** [with self as p: body], as Python runs it: the block gets what
    [__enter__] returns; [__exit__] is called when the block ends, with the
    exception if there is one, and that exception is dropped only when
    [__exit__] returns a true value. *)
Definition with_statement (self : BotoBackoff V Args W)
           (body : BotoBackoff V Args W -> state W -> outcome V * state W)
           (s : state W) : outcome V * state W :=
  let '(p, s1) := __enter__ self s in
  let '(r, s2) := body p s1 in
  match r with
  | Return v => let '(_, s3) := __exit__ self None s2 in (Return v, s3)
  | Raise e =>
      let '(swallow, s3) := __exit__ self (Some e) s2 in
      if truthy_value swallow then (Return PyNone, s3) else (Raise e, s3)
  end.

End ContextManager.

(** ** Attribute lookup on the proxy *)

Section Lookup.

Context {V Args W : Type}.

(** the names that every Python object resolves by itself, such as
    [__class__], [__dict__], [__module__] and [__doc__] *)
Variable object_has : string -> bool.

(** what an attribute of the proxy's own holds *)
Inductive own_attribute :=
| OwnClient (c : client V Args W)
| OwnList (l : loc)
| OwnNumber (a : number)
| OwnInt (z : Z)
| OwnMethod (name : string)
| OwnOfObject (name : string).

(** the attributes that [__init__] sets on the instance *)
Definition instance_attribute (self : BotoBackoff V Args W) (item : string)
  : option own_attribute :=
  if String.eqb item "_client" then Some (OwnClient (_client self))
  else if String.eqb item "_added_backoff_error_codes"
       then Some (OwnList (_added_backoff_error_codes self))
  else if String.eqb item "_ignore_errors" then Some (OwnList (_ignore_errors self))
  else if String.eqb item "_backoff_rate" then Some (OwnNumber (_backoff_rate self))
  else if String.eqb item "_interval_seconds" then Some (OwnNumber (_interval_seconds self))
  else if String.eqb item "_max_retries" then Some (OwnInt (_max_retries self))
  else if String.eqb item "_jitter" then Some (OwnNumber (_jitter self))
  else if String.eqb item "_max_retries_before_backoff"
       then Some (OwnInt (_max_retries_before_backoff self))
  else None.

(** the methods that the class defines *)
Definition class_methods : list string :=
  [ "__init__"; "with_options"; "__getattr__"; "__enter__"; "__exit__" ]%string.

(** the proxy defines the name itself: the normal lookup finds it *)
Definition proxy_defines (self : BotoBackoff V Args W) (item : string) : bool :=
  match instance_attribute self item with
  | Some _ => true
  | None => bool_decide (item ∈ class_methods) || object_has item
  end.

Inductive found :=
| Own (a : own_attribute)
| Through (r : lookup_result V Args W).

(** [getattr(proxy, item)], that is [proxy.item]: the instance, then the
    class, then [object]; Python calls [__getattr__] only when all of them
    miss *)
Definition proxy_getattr (self : BotoBackoff V Args W) (item : string) (s : state W)
  : found * state W :=
  match instance_attribute self item with
  | Some a => (Own a, s)
  | None =>
      if bool_decide (item ∈ class_methods) then (Own (OwnMethod item), s)
      else if object_has item then (Own (OwnOfObject item), s)
      else let '(r, s') := __getattr__ self item s in (Through r, s')
  end.

End Lookup.

Arguments own_attribute : clear implicits.
Arguments found : clear implicits.

(** ** Concrete scenarios *)

Module Scenario.

(** floats, by mantissa and exponent *)
Definition half : spec_float := S754_finite false 4503599627370496 (-53).
Definition one_tenth : spec_float := S754_finite false 7205759403792794 (-56).
Definition two_tenths : spec_float := S754_finite false 7205759403792794 (-55).
Definition four_tenths : spec_float := S754_finite false 7205759403792794 (-54).
Definition eight_tenths : spec_float := S754_finite false 7205759403792794 (-53).
Definition one : spec_float := S754_finite false 4503599627370496 (-52).
Definition zero : spec_float := S754_zero false.

(** The world is a call counter; values are numbers; calls take no
    arguments.  Draws are always 0.5, sleeping leaves the counter alone. *)
Definition draw (w : nat) : spec_float * nat := (half, w).

(** the whole number that a float is, if it is one *)
Definition whole (y : spec_float) : option Z :=
  match y with
  | S754_zero _ => Some 0
  | S754_finite s m e =>
      if 0 <=? e then Some (cond_Zopp s (Zpos m * 2 ^ e))
      else if (Zpos m mod 2 ^ (- e) =? 0) then Some (cond_Zopp s (Zpos m / 2 ^ (- e)))
      else None
  | _ => None
  end.

(** A power of floats that rounds the exact power once, for a finite base
    and a whole exponent that is not negative; [nan] elsewhere, where no
    scenario goes (their exponents are whole and not negative). *)
Definition pow (x y : spec_float) : builtin_error + spec_float :=
  match x, whole y with
  | S754_finite s m e, Some n =>
      if 0 <=? n then
        match binary_normalize 53 1024 (cond_Zopp s (Zpos m) ^ n) (e * n) false with
        | S754_infinity _ => inl ("OverflowError", "(34, 'Numerical result out of range')")
        | p => inr p
        end
      else inr S754_nan
  | S754_zero s, Some n =>
      if n =? 0 then inr (S754_finite false 4503599627370496 (-52))
      else if 0 <? n then inr (S754_zero (s && Z.odd n)) else inr S754_nan
  | _, _ => inr S754_nan
  end.

(** A sleep in the manner of CPython: a length of 2^63 nanoseconds or more,
    of either sign, is out of range; a negative one is refused; the others
    pass and leave the counter alone. *)
Definition sleep (secs : number) (w : nat) : builtin_error + nat :=
  let out_of_range := inl ("OverflowError", "timestamp too large to convert to C _PyTime_t") in
  let negative := inl ("ValueError", "sleep length must be non-negative") in
  match secs with
  | PyInt z =>
      if 9223372036 <? Z.abs z then out_of_range
      else if z <? 0 then negative
      else inr w
  | PyFloat S754_nan => inl ("ValueError", "Invalid value NaN (not a number)")
  | PyFloat x =>
      if SFleb (S754_finite false 4835703278458517 (-19)) (SFabs x) then out_of_range
      else if SFltb x zero then negative
      else inr w
  end.

Definition make_error (code msg : string) : exn :=
  ClientError {| operation_name := "list_buckets";
                 response_Error := Some {| Code := Some code; Message := Some msg |} |}.

Definition throttling : client_error :=
  {| operation_name := "list_buckets";
     response_Error :=
       Some {| Code := Some "ThrottlingException"; Message := Some "Rate exceeded" |} |}.
Definition throttled : exn := ClientError throttling.

(** an operation that always fails with a throttling error *)
Definition always_throttled : callable nat unit nat :=
  fun _ w => (Raise throttled, S w).

(** the module has just been imported: the store holds its table and
    nothing else *)
Definition empty_state : state nat :=
  {| heap := {[ table := DEFAULT_RETRY_ERROR_CODES ]}; world := 0%nat; log := [] |}.

Definition defaults : options :=
  {| interval_seconds := PyFloat two_tenths;
     max_retries := 3;
     backoff_rate := PyInt 2;
     jitter := PyFloat half;
     max_retries_before_backoff := 0;
     ignore_error_codes := None;
     added_error_codes := None |}.

Definition run (o : options) (fn : callable nat unit nat) (fuel : nat) :=
  let '(rf, s) := deco o fn empty_state in
  call_retry_func draw pow sleep fuel rf tt s.

(** what a run gave: the outcome, the number of underlying calls and the
    sleeps, newest first *)
Definition summary (res : option (outcome nat * state nat))
  : option (outcome nat * nat * list event) :=
  match res with
  | Some (r, s) => Some (r, calls (log s), sleeps (log s))
  | None => None
  end.

(** the decorated function and the state right after decorating *)
Definition throttled_func : retry_func nat unit nat :=
  (deco defaults always_throttled empty_state).1.
Definition throttled_state : state nat :=
  (deco defaults always_throttled empty_state).2.

Definition one_retry : options :=
  {| interval_seconds := PyFloat two_tenths;
     max_retries := 1;
     backoff_rate := PyInt 2;
     jitter := PyFloat half;
     max_retries_before_backoff := 0;
     ignore_error_codes := None;
     added_error_codes := None |}.

(** fails once with a throttling error, then answers with the number of
    the call *)
Definition throttled_once : callable nat unit nat :=
  fun _ w =>
    match w with
    | O => (Raise throttled, S w)
    | S _ => (Return (PyVal w), S w)
    end.

(** an operation the caller is not allowed to use *)
Definition access_denied : client_error :=
  {| operation_name := "list_buckets";
     response_Error :=
       Some {| Code := Some "AccessDenied"; Message := Some "Access Denied" |} |}.
Definition always_denied : callable nat unit nat :=
  fun _ w => (Raise (ClientError access_denied), S w).
Definition denied_func : retry_func nat unit nat :=
  (deco one_retry always_denied empty_state).1.
Definition denied_state : state nat :=
  (deco one_retry always_denied empty_state).2.

(** the caller holds a list [["RequestLimitExceeded"]] and passes it as
    [ignore_error_codes] *)
Definition limit_exceeded : client_error :=
  {| operation_name := "list_buckets";
     response_Error :=
       Some {| Code := Some "RequestLimitExceeded";
               Message := Some "The specified bucket does not exist" |} |}.
Definition always_limited : callable nat unit nat :=
  fun _ w => (Raise (ClientError limit_exceeded), S w).
Definition ignoring_state : state nat :=
  {| heap := <[ 1%nat := ["RequestLimitExceeded"] ]> (heap empty_state);
     world := 0%nat; log := [] |}.
Definition ignoring : options :=
  {| interval_seconds := PyFloat two_tenths;
     max_retries := 3;
     backoff_rate := PyInt 2;
     jitter := PyFloat half;
     max_retries_before_backoff := 0;
     ignore_error_codes := Some 1%nat;
     added_error_codes := None |}.

(** a connection failure: botocore raises it as an exception that is not
    a [ClientError] *)
Definition always_unreachable : callable nat unit nat :=
  fun _ w => (Raise (Exception "EndpointConnectionError" "Could not connect"), S w).

(** a client with one operation and one plain attribute *)
Definition s3 : client nat unit nat :=
  fun item =>
    if String.eqb item "list_buckets" then Some (Method always_throttled)
    else if String.eqb item "meta" then Some (Plain 7%nat)
    else None.

(** the caller holds a list [["Foo"]] and passes it as
    [added_error_codes] to [BotoBackoff(...)] *)
Definition caller_state : state nat :=
  {| heap := <[ 1%nat := ["Foo"] ]> (heap empty_state); world := 0%nat; log := [] |}.
Definition with_foo : options :=
  {| interval_seconds := PyFloat two_tenths;
     max_retries := 3;
     backoff_rate := PyInt 2;
     jitter := PyFloat half;
     max_retries_before_backoff := 0;
     ignore_error_codes := None;
     added_error_codes := Some 1%nat |}.
Definition proxy : BotoBackoff nat unit nat := (__init__ s3 with_foo caller_state).1.
Definition proxy_state : state nat := (__init__ s3 with_foo caller_state).2.

(** [with_options(interval_seconds=0, max_retries=0, jitter=0)] *)
Definition zeroes : overrides :=
  {| ov_interval_seconds := Some (PyInt 0);
     ov_max_retries := Some 0;
     ov_backoff_rate := None;
     ov_jitter := Some (PyInt 0);
     ov_max_retries_before_backoff := None;
     ov_ignore_error_codes := None;
     ov_added_error_codes := None |}.

(** a generator whose draws are always 0.0, the low end of the interval *)
Definition low_draw (w : nat) : spec_float * nat := (zero, w).

(** a jitter above 1, and backoff from the first retry on
    ([max_retries_before_backoff = -1]) *)
Definition wild_jitter : options :=
  {| interval_seconds := PyFloat two_tenths;
     max_retries := 3;
     backoff_rate := PyInt 2;
     jitter := PyInt 3;
     max_retries_before_backoff := -1;
     ignore_error_codes := None;
     added_error_codes := None |}.
Definition wild_func : retry_func nat unit nat :=
  (deco wild_jitter always_throttled empty_state).1.
Definition wild_state : state nat :=
  (deco wild_jitter always_throttled empty_state).2.

(** three retries, none of them with backoff *)
Definition no_backoff : options :=
  {| interval_seconds := PyFloat two_tenths;
     max_retries := 3;
     backoff_rate := PyInt 2;
     jitter := PyFloat half;
     max_retries_before_backoff := 3;
     ignore_error_codes := None;
     added_error_codes := None |}.
Definition patient_func : retry_func nat unit nat :=
  (deco no_backoff always_throttled empty_state).1.
Definition patient_state : state nat :=
  (deco no_backoff always_throttled empty_state).2.

(** [max_retries = -1] *)
Definition no_retry : options :=
  {| interval_seconds := PyFloat two_tenths;
     max_retries := -1;
     backoff_rate := PyInt 2;
     jitter := PyFloat half;
     max_retries_before_backoff := 0;
     ignore_error_codes := None;
     added_error_codes := None |}.
Definition impatient_func : retry_func nat unit nat :=
  (deco no_retry always_throttled empty_state).1.
Definition impatient_state : state nat :=
  (deco no_retry always_throttled empty_state).2.

(** a client error whose response has no ["Error"] entry, and one whose
    ["Error"] has no ["Code"] *)
Definition bare_error : client_error :=
  {| operation_name := "list_buckets"; response_Error := None |}.
Definition always_bare : callable nat unit nat :=
  fun _ w => (Raise (ClientError bare_error), S w).
Definition codeless_error : client_error :=
  {| operation_name := "list_buckets";
     response_Error := Some {| Code := None; Message := Some "no code" |} |}.
Definition always_codeless : callable nat unit nat :=
  fun _ w => (Raise (ClientError codeless_error), S w).

(** the decorated function of the first-failure-then-success operation *)
Definition once_func : retry_func nat unit nat :=
  (deco defaults throttled_once empty_state).1.
Definition once_state : state nat :=
  (deco defaults throttled_once empty_state).2.

(** the caller's code ["Foo"] as an error *)
Definition foo_error : client_error :=
  {| operation_name := "list_buckets";
     response_Error := Some {| Code := Some "Foo"; Message := Some "foo" |} |}.
Definition always_foo : callable nat unit nat :=
  fun _ w => (Raise (ClientError foo_error), S w).

(** the caller passes its list [["Foo"]] both as [added_error_codes] and as
    [ignore_error_codes] *)
Definition foo_twice : options :=
  {| interval_seconds := PyFloat two_tenths;
     max_retries := 3;
     backoff_rate := PyInt 2;
     jitter := PyFloat half;
     max_retries_before_backoff := 0;
     ignore_error_codes := Some 1%nat;
     added_error_codes := Some 1%nat |}.

(** a client whose [list_buckets] always hits the request limit, behind a
    proxy that ignores that code *)
Definition limited_s3 : client nat unit nat :=
  fun item =>
    if String.eqb item "list_buckets" then Some (Method always_limited) else None.
Definition tolerant : BotoBackoff nat unit nat :=
  (__init__ limited_s3 ignoring ignoring_state).1.
Definition tolerant_state : state nat :=
  (__init__ limited_s3 ignoring ignoring_state).2.

(** a proxy built without lists *)
Definition plain_proxy : BotoBackoff nat unit nat := (__init__ s3 defaults empty_state).1.
Definition plain_state : state nat := (__init__ s3 defaults empty_state).2.

(** [with_options(interval_seconds=1, max_retries=5, backoff_rate=3,
    jitter=0.1, max_retries_before_backoff=2)] *)
Definition all_set : overrides :=
  {| ov_interval_seconds := Some (PyInt 1);
     ov_max_retries := Some 5;
     ov_backoff_rate := Some (PyInt 3);
     ov_jitter := Some (PyFloat one_tenth);
     ov_max_retries_before_backoff := Some 2;
     ov_ignore_error_codes := None;
     ov_added_error_codes := None |}.

(** [with_options(max_retries=7)] *)
Definition seven_retries : overrides :=
  {| ov_interval_seconds := None;
     ov_max_retries := Some 7;
     ov_backoff_rate := None;
     ov_jitter := None;
     ov_max_retries_before_backoff := None;
     ov_ignore_error_codes := None;
     ov_added_error_codes := None |}.

(** the caller holds an empty list at location 5 and passes it as
    [ignore_error_codes] to [with_options] on the tolerant proxy *)
Definition with_empty_list : state nat :=
  {| heap := <[ 5%nat := [] ]> (heap tolerant_state);
     world := world tolerant_state; log := log tolerant_state |}.
Definition ignore_nothing : overrides :=
  {| ov_interval_seconds := None;
     ov_max_retries := None;
     ov_backoff_rate := None;
     ov_jitter := None;
     ov_max_retries_before_backoff := None;
     ov_ignore_error_codes := Some 5%nat;
     ov_added_error_codes := None |}.

(** every override left unset *)
Definition nothing_set : overrides :=
  {| ov_interval_seconds := None;
     ov_max_retries := None;
     ov_backoff_rate := None;
     ov_jitter := None;
     ov_max_retries_before_backoff := None;
     ov_ignore_error_codes := None;
     ov_added_error_codes := None |}.

(** [interval_seconds=0.0, max_retries=1100]: the power [2 ** 1024] is an
    int that no float holds *)
Definition overflowing : options :=
  {| interval_seconds := PyFloat zero;
     max_retries := 1100;
     backoff_rate := PyInt 2;
     jitter := PyFloat half;
     max_retries_before_backoff := 0;
     ignore_error_codes := None;
     added_error_codes := None |}.

(** [interval_seconds=0.1, backoff_rate=3, jitter=0] *)
Definition rounding : options :=
  {| interval_seconds := PyFloat one_tenth;
     max_retries := 3;
     backoff_rate := PyInt 3;
     jitter := PyInt 0;
     max_retries_before_backoff := 0;
     ignore_error_codes := None;
     added_error_codes := None |}.

Definition overflow_func : retry_func nat unit nat :=
  (deco overflowing always_throttled empty_state).1.
Definition overflow_state : state nat :=
  (deco overflowing always_throttled empty_state).2.

(** [interval_seconds=1e10]: the second delay, 2e10 seconds, is more than
    [time.sleep] takes *)
Definition ten_billion : spec_float := S754_finite false 5242880000000000 (-19).
Definition huge_interval : options :=
  {| interval_seconds := PyFloat ten_billion;
     max_retries := 3;
     backoff_rate := PyInt 2;
     jitter := PyFloat half;
     max_retries_before_backoff := 0;
     ignore_error_codes := None;
     added_error_codes := None |}.

(** [backoff_rate=1.5] *)
Definition float_rate : options :=
  {| interval_seconds := PyFloat two_tenths;
     max_retries := 3;
     backoff_rate := PyFloat (S754_finite false 6755399441055744 (-52));
     jitter := PyFloat half;
     max_retries_before_backoff := 0;
     ignore_error_codes := None;
     added_error_codes := None |}.

(** the caller passes the module's table itself as [added_error_codes] *)
Definition with_table : options :=
  {| interval_seconds := PyFloat two_tenths;
     max_retries := 3;
     backoff_rate := PyInt 2;
     jitter := PyFloat half;
     max_retries_before_backoff := 0;
     ignore_error_codes := None;
     added_error_codes := Some table |}.
Definition table_proxy : BotoBackoff nat unit nat := (__init__ s3 with_table empty_state).1.
Definition table_state : state nat := (__init__ s3 with_table empty_state).2.

(** the outcome of a run and the number of its underlying calls *)
Definition outcome_and_calls (res : option (outcome nat * state nat))
  : option (outcome nat * nat) :=
  match res with
  | Some (r, s) => Some (r, calls (log s))
  | None => None
  end.

(** names that every object has *)
Definition object_names : list string :=
  [ "__class__"; "__delattr__"; "__dict__"; "__dir__"; "__doc__"; "__eq__";
    "__format__"; "__ge__"; "__getattribute__"; "__gt__"; "__hash__";
    "__init_subclass__"; "__le__"; "__lt__"; "__module__"; "__ne__"; "__new__";
    "__reduce__"; "__reduce_ex__"; "__repr__"; "__setattr__"; "__sizeof__";
    "__str__"; "__subclasshook__"; "__weakref__" ]%string.
Definition object_has (item : string) : bool := bool_decide (item ∈ object_names).

(** a client that has plain attributes of its own under the names
    [_max_retries] and [meta] *)
Definition odd_client : client nat unit nat :=
  fun item =>
    if String.eqb item "_max_retries" then Some (Plain 7%nat)
    else if String.eqb item "meta" then Some (Plain 7%nat)
    else None.
Definition odd_proxy : BotoBackoff nat unit nat :=
  (__init__ odd_client defaults empty_state).1.
Definition odd_state : state nat := (__init__ odd_client defaults empty_state).2.

End Scenario.

(** * Properties *)

Section Properties.

Context {V Args W : Type}.
Variable random_random : W -> spec_float * W.
Variable float_pow : spec_float -> spec_float -> builtin_error + spec_float.
Variable sleeping : number -> W -> builtin_error + W.

Abbreviation state := (state W).
Abbreviation retry_func := (retry_func V Args W).
Abbreviation py_pow := (py_pow float_pow).
Abbreviation random_uniform := (random_uniform random_random).
Abbreviation sleep_time := (sleep_time random_random float_pow).
Abbreviation time_sleep := (@time_sleep W sleeping).
Abbreviation loop_body := (loop_body random_random float_pow sleeping).
Abbreviation retry_loop := (retry_loop random_random float_pow sleeping).
Abbreviation call_retry_func := (call_retry_func random_random float_pow sleeping).
Abbreviation backoff := (@backoff V W random_random float_pow sleeping).
Abbreviation pauses_succeed := (pauses_succeed random_random float_pow sleeping).

Implicit Types (s : state) (rf : retry_func) (args : Args) (o : options).
Implicit Types (fn : callable V Args W).

(** *** Membership *)

Lemma py_in_true code lst : py_in code lst = true <-> code ∈ lst.
Proof. unfold py_in. apply bool_decide_eq_true. Qed.

Lemma py_in_false code lst : py_in code lst = false <-> code ∉ lst.
Proof. unfold py_in. apply bool_decide_eq_false. Qed.

(** *** The store: new lists, [x or []], [extend] *)

Lemma new_list_fresh s : heap s !! (new_list s).1 = None.
Proof. simpl. apply not_elem_of_dom, is_fresh. Qed.

(** A new list is empty, and a location never allocated reads as empty:
    allocation changes what no location holds. *)
Lemma new_list_read s l : read (heap (new_list s).2) l = read (heap s) l.
Proof.
  unfold read. simpl. destruct (decide (fresh (dom (heap s)) = l)) as [<-|Hne].
  - pose proof (new_list_fresh s) as Hfresh. simpl in Hfresh.
    by rewrite lookup_insert_eq, Hfresh.
  - by rewrite lookup_insert_ne.
Qed.

Lemma new_list_world_log s :
  world (new_list s).2 = world s /\ log (new_list s).2 = log s.
Proof. done. Qed.

Lemma or_new_list_read x s l : read (heap (or_new_list x s).2) l = read (heap s) l.
Proof.
  unfold or_new_list. destruct x as [l0|]; [|apply new_list_read].
  destruct (truthy_list _); [done | apply new_list_read].
Qed.

Lemma or_new_list_world_log x s :
  world (or_new_list x s).2 = world s /\ log (or_new_list x s).2 = log s.
Proof.
  unfold or_new_list. destruct x as [l0|]; [|done].
  by destruct (truthy_list _).
Qed.

(** [x or []] holds what [x] holds. *)
Lemma or_new_list_contents l0 s :
  read (heap (or_new_list (Some l0) s).2) (or_new_list (Some l0) s).1 = read (heap s) l0.
Proof.
  unfold or_new_list. destruct (read (heap s) l0) as [|c lst] eqn:Hl0; simpl; [|done].
  unfold read. by rewrite lookup_insert_eq.
Qed.

Lemma or_new_list_None_contents s :
  read (heap (or_new_list None s).2) (or_new_list None s).1 = [].
Proof. simpl. unfold read. by rewrite lookup_insert_eq. Qed.

Lemma extend_read l more s l' :
  read (heap (extend l more s)) l'
  = if decide (l = l') then read (heap s) l ++ more else read (heap s) l'.
Proof.
  unfold extend, read at 1. simpl. case_decide as Heq.
  - subst l'. by rewrite lookup_insert_eq.
  - by rewrite lookup_insert_ne.
Qed.

Lemma extend_keeps l more s l' code :
  code ∈ read (heap s) l' -> code ∈ read (heap (extend l more s)) l'.
Proof.
  intros Hin. rewrite extend_read. case_decide as Heq; [|done].
  subst l'. apply elem_of_app. by left.
Qed.

(** *** What [deco] builds *)

Lemma deco_closure o fn s :
  f (deco o fn s).1 = fn /\ opts (deco o fn s).1 = o /\
  world (deco o fn s).2 = world s /\ log (deco o fn s).2 = log s.
Proof.
  unfold deco.
  destruct (or_new_list (added_error_codes o) s) as [l1 s1] eqn:H1.
  destruct (or_new_list (ignore_error_codes o) _) as [l2 s3] eqn:H2. simpl.
  pose proof (or_new_list_world_log (added_error_codes o) s) as Ha.
  pose proof (or_new_list_world_log (ignore_error_codes o)
                (extend l1 (read (heap s1) table) s1)) as Hb.
  rewrite H1 in Ha. rewrite H2 in Hb. simpl in *.
  destruct Ha as [Ha1 Ha2], Hb as [Hb1 Hb2].
  by rewrite Hb1, Hb2, Ha1, Ha2.
Qed.

(** [retry_on] ends with what the module's table holds. *)
Lemma deco_retry_on o fn s :
  exists lst, read (heap (deco o fn s).2) (retry_on (deco o fn s).1)
              = lst ++ read (heap s) table /\
              (forall l, added_error_codes o = Some l -> lst = read (heap s) l) /\
              (added_error_codes o = None -> lst = []).
Proof.
  unfold deco.
  destruct (or_new_list (added_error_codes o) s) as [l1 s1] eqn:H1.
  destruct (or_new_list (ignore_error_codes o) _) as [l2 s3] eqn:H2.
  cbn [fst snd retry_on ignore_on].
  pose proof (or_new_list_read (ignore_error_codes o)
                (extend l1 (read (heap s1) table) s1) l1) as Hr.
  rewrite H2 in Hr. cbn [fst snd] in Hr. rewrite Hr, extend_read.
  rewrite decide_True by done.
  pose proof (or_new_list_read (added_error_codes o) s table) as Ht.
  rewrite H1 in Ht. cbn [snd] in Ht. rewrite Ht.
  exists (read (heap s1) l1). split; [done|]. split.
  - intros l Hl. rewrite Hl in H1.
    pose proof (or_new_list_contents l s) as Hc. by rewrite H1 in Hc.
  - intros Hnone. rewrite Hnone in H1.
    pose proof (or_new_list_None_contents s) as Hc. by rewrite H1 in Hc.
Qed.

(** [ignore_on] holds at least what the caller's list held. *)
Lemma deco_ignore_on o fn s l code :
  ignore_error_codes o = Some l -> code ∈ read (heap s) l ->
  code ∈ read (heap (deco o fn s).2) (ignore_on (deco o fn s).1).
Proof.
  intros Hl Hin. unfold deco.
  destruct (or_new_list (added_error_codes o) s) as [l1 s1] eqn:H1.
  destruct (or_new_list (ignore_error_codes o) _) as [l2 s3] eqn:H2.
  cbn [fst snd retry_on ignore_on].
  rewrite Hl in H2.
  pose proof (or_new_list_contents l (extend l1 (read (heap s1) table) s1)) as Hc.
  rewrite H2 in Hc. cbn [fst snd] in Hc. rewrite Hc.
  apply extend_keeps.
  pose proof (or_new_list_read (added_error_codes o) s l) as Hr.
  rewrite H1 in Hr. cbn [fst snd] in Hr. by rewrite Hr.
Qed.

(** *** One turn of the loop *)

Lemma time_sleep_inr secs s s' :
  time_sleep secs s = inr s' ->
  exists w, sleeping secs (world s) = inr w /\ s' = record (EvSleep secs) (set_world w s).
Proof.
  unfold time_sleep. destruct (sleeping secs (world s)) as [e|w]; [done|].
  intros [= <-]. by exists w.
Qed.

(** What backing off does, case by case. *)
Lemma backoff_below o a s :
  a <= max_retries_before_backoff o -> backoff o a s = Retrying (a + 1) s.
Proof.
  intros Hle. unfold backoff.
  assert ((a >? max_retries_before_backoff o) = false) as -> by lia. done.
Qed.

Lemma backoff_slept o a s d w w' :
  max_retries_before_backoff o < a ->
  sleep_time o a (world s) = (inr d, w) -> sleeping d w = inr w' ->
  backoff o a s = Retrying (a + 1) (record (EvSleep d) (set_world w' s)).
Proof.
  intros Hlt Hd Hs. unfold backoff.
  assert ((a >? max_retries_before_backoff o) = true) as -> by lia.
  rewrite Hd. unfold time_sleep. cbn [world set_world]. by rewrite Hs.
Qed.

Lemma backoff_refused o a s d w e :
  max_retries_before_backoff o < a ->
  sleep_time o a (world s) = (inr d, w) -> sleeping d w = inl e ->
  backoff o a s = Finished (Raise (raised e)) (set_world w s).
Proof.
  intros Hlt Hd Hs. unfold backoff.
  assert ((a >? max_retries_before_backoff o) = true) as -> by lia.
  rewrite Hd. unfold time_sleep. cbn [world set_world]. by rewrite Hs.
Qed.

Lemma backoff_failed o a s e w :
  max_retries_before_backoff o < a ->
  sleep_time o a (world s) = (inl e, w) ->
  backoff o a s = Finished (Raise e) (set_world w s).
Proof.
  intros Hlt Hd. unfold backoff.
  assert ((a >? max_retries_before_backoff o) = true) as -> by lia.
  by rewrite Hd.
Qed.

(** Backing off never touches the store and makes no underlying call. *)
Lemma backoff_frame o a s :
  heap (turn_state (backoff o a s)) = heap s /\
  calls (log (turn_state (backoff o a s))) = calls (log s).
Proof.
  unfold backoff. destruct (a >? _); [|done].
  destruct (sleep_time o a (world s)) as [[e|d] w]; [done|].
  destruct (time_sleep _ _) as [e|s'] eqn:Hs; [done|].
  apply time_sleep_inr in Hs as (w' & _ & ->). done.
Qed.

Lemma backoff_retrying_inv o a s a' s' :
  backoff o a s = Retrying a' s' -> a' = a + 1.
Proof.
  unfold backoff. destruct (a >? _).
  - destruct (sleep_time o a (world s)) as [[e|d] w]; [done|].
    destruct (time_sleep _ _); congruence.
  - congruence.
Qed.

(** When the delays that can be asked for are computed and slept without an
    exception, backing off goes on to the next turn. *)
Lemma backoff_retrying o a s :
  pauses_succeed o -> 0 <= a <= max_retries o ->
  exists s', backoff o a s = Retrying (a + 1) s'.
Proof.
  intros Hp [Ha0 Ha].
  destruct (Z.le_gt_cases a (max_retries_before_backoff o)) as [Hle|Hgt].
  - exists s. by apply backoff_below.
  - destruct (Hp a (world s)) as (d & w1 & w2 & Hd & Hs); [done|lia|].
    eexists. by apply (backoff_slept o a s d w1 w2).
Qed.

Lemma loop_body_frame rf args a s :
  heap (turn_state (loop_body rf args a s)) = heap s /\
  calls (log (turn_state (loop_body rf args a s))) = S (calls (log s)).
Proof.
  unfold loop_body. destruct (f rf args (world s)) as [r w].
  destruct r as [v|[e|cls msg]]; try done.
  destruct (response_Error e) as [d|]; [|done].
  destruct (Code d) as [c|]; [|done].
  destruct (py_in c _); [done|].
  destruct (py_in c _ && _); [|done].
  by destruct (backoff_frame (opts rf) a (record EvCall (set_world w s))) as [-> ->].
Qed.

Lemma loop_body_retrying_inv rf args a s a' s' :
  loop_body rf args a s = Retrying a' s' ->
  a' = a + 1 /\ a <= max_retries (opts rf).
Proof.
  unfold loop_body. destruct (f rf args (world s)) as [r w].
  destruct r as [v|[e|cls msg]]; try done.
  destruct (response_Error e) as [d|]; [|done].
  destruct (Code d) as [c|]; [|done].
  destruct (py_in c _); [done|].
  destruct (py_in c _ && _) eqn:Hc; [|done].
  intros Hb. apply backoff_retrying_inv in Hb.
  apply andb_true_iff in Hc as [_ Hc]. apply negb_true_iff in Hc. lia.
Qed.

(** The four ways a turn can go when the call raises a client error with
    a code. *)
Lemma loop_body_client_error rf args a s e w' code :
  fails_with rf args s e w' -> has_code e code ->
  loop_body rf args a s =
    let s1 := record EvCall (set_world w' s) in
    match classify (read (heap s) (ignore_on rf)) (read (heap s) (retry_on rf)) code with
    | IGNORE => Finished (Return PyNone) s1
    | RETRY => if a >? max_retries (opts rf)
               then Finished (Raise (ClientError e)) s1
               else backoff (opts rf) a s1
    | PROPAGATE => Finished (Raise (ClientError e)) s1
    end.
Proof.
  intros Hf (d & Hd & Hc). unfold fails_with in Hf.
  unfold loop_body, classify. rewrite Hf, Hd, Hc. simpl.
  destruct (py_in code (read (heap s) (ignore_on rf))); [done|].
  destruct (py_in code (read (heap s) (retry_on rf))); [|done].
  simpl. by destruct (a >? _).
Qed.

(** *** Fuel *)

Lemma retry_loop_fuel_mono rf args n m a s r :
  (n <= m)%nat -> retry_loop n rf args a s = Some r -> retry_loop m rf args a s = Some r.
Proof.
  revert m a s. induction n as [|n IH]; intros m a s Hle; [done|].
  destruct m as [|m]; [lia|]. simpl.
  destruct (loop_body rf args a s) as [r' s'|a' s']; [done|].
  apply IH. lia.
Qed.

(** The loop always ends: at most [max_retries + 2] turns, counted from
    [_attempts = 0]. *)
Lemma retry_loop_total rf args n a s :
  (Z.to_nat (max_retries (opts rf) + 1 - a) < n)%nat ->
  is_Some (retry_loop n rf args a s).
Proof.
  revert a s. induction n as [|n IH]; intros a s Hn; [lia|]. simpl.
  destruct (loop_body rf args a s) as [r' s'|a' s'] eqn:Hb; [by eexists|].
  apply loop_body_retrying_inv in Hb as [-> Hle].
  apply IH. lia.
Qed.

Lemma call_retry_func_eq fuel rf args s :
  call_retry_func fuel rf args s = retry_loop fuel rf args 0 s.
Proof. reflexivity. Qed.

Lemma call_retry_func_total rf args s :
  is_Some (call_retry_func (S (Z.to_nat (max_retries (opts rf) + 1))) rf args s).
Proof. apply retry_loop_total. lia. Qed.

(** *** Exhausting the retries *)

Lemma retry_loop_None_le rf args n m a s :
  (m <= n)%nat -> retry_loop n rf args a s = None -> retry_loop m rf args a s = None.
Proof.
  intros Hle Hn. destruct (retry_loop m rf args a s) as [r|] eqn:Hm; [|done].
  apply (retry_loop_fuel_mono _ _ _ n) in Hm; [congruence | done].
Qed.

(** Entered with [_attempts = a], a call that keeps failing retryably is
    made once for each value of [_attempts] from [a] to [max_retries + 1]. *)
Lemma exhaust_from rf args n a s :
  pauses_succeed (opts rf) -> 0 <= a ->
  always_fails_retryably rf args (heap s) ->
  Z.of_nat n = max_retries (opts rf) + 1 - a ->
  exists e s',
    retry_loop (S n) rf args a s = Some (Raise (ClientError e), s') /\
    retry_loop n rf args a s = None /\
    calls (log s') = (calls (log s) + S n)%nat /\
    exists w, f rf args w = (Raise (ClientError e), world s').
Proof.
  intros Hp. revert a s.
  induction n as [|n IH]; intros a s Ha0 Hf Hn;
    destruct (Hf (world s)) as (e & code & w' & Hcall & Hcode & Hin & Hnotin);
    pose proof (loop_body_client_error rf args a s e w' code Hcall Hcode) as Hb;
    unfold classify in Hb;
    apply py_in_true in Hin; apply py_in_false in Hnotin;
    rewrite Hnotin, Hin in Hb; simpl in Hb.
  - assert ((a >? max_retries (opts rf)) = true) as Hgt by lia.
    rewrite Hgt in Hb. exists e, (record EvCall (set_world w' s)).
    simpl. rewrite Hb. split; [done|]. split; [done|].
    split; [unfold calls; simpl; lia|]. by exists (world s).
  - assert ((a >? max_retries (opts rf)) = false) as Hgt by lia.
    rewrite Hgt in Hb.
    destruct (backoff_retrying (opts rf) a (record EvCall (set_world w' s)) Hp)
      as [s2 Hs2]; [lia|].
    pose proof (backoff_frame (opts rf) a (record EvCall (set_world w' s))) as Hfr.
    rewrite Hs2 in Hfr, Hb. simpl in Hfr. destruct Hfr as [Hheap Hcalls].
    destruct (IH (a + 1) s2) as (e' & s' & Hrun & Hshort & Hcount & Horig).
    { lia. }
    { by rewrite Hheap. }
    { lia. }
    exists e', s'. change (retry_loop (S (S n)) rf args a s)
      with (match loop_body rf args a s with
            | Finished r s' => Some (r, s')
            | Retrying a' s' => retry_loop (S n) rf args a' s'
            end).
    change (retry_loop (S n) rf args a s)
      with (match loop_body rf args a s with
            | Finished r s' => Some (r, s')
            | Retrying a' s' => retry_loop n rf args a' s'
            end).
    rewrite Hb. split; [done|]. split; [done|]. split; [|done].
    rewrite Hcount, Hcalls. unfold calls. simpl. lia.
Qed.

(** X5. With a negative [max_retries] the first failure is already raised:
    one underlying call and no sleep, for every code that is not ignored,
    retryable or not. *)
Lemma negative_max_retries_never_retries rf args s e w' code fuel :
  max_retries (opts rf) < 0 ->
  fails_with rf args s e w' -> has_code e code ->
  code ∉ read (heap s) (ignore_on rf) ->
  call_retry_func (S fuel) rf args s
  = Some (Raise (ClientError e), record EvCall (set_world w' s)).
Proof.
  intros Hneg Hcall Hcode Hign. rewrite call_retry_func_eq. simpl.
  rewrite (loop_body_client_error rf args 0 s e w' code Hcall Hcode).
  unfold classify. apply py_in_false in Hign. rewrite Hign.
  assert ((0 >? max_retries (opts rf)) = true) as -> by lia.
  cbv zeta. by destruct (py_in code (read (heap s) (retry_on rf))).
Qed.


(** *** Ignored codes *)

(** The precedence law: a code in the ignore list is ignored whatever
    the retry list holds. *)
Lemma classify_ignore_wins ignore_codes retry_codes code :
  code ∈ ignore_codes -> classify ignore_codes retry_codes code = IGNORE.
Proof. intros Hin. unfold classify. apply py_in_true in Hin. by rewrite Hin. Qed.

(** C2. A failure whose code is in the caller's [ignore_error_codes]
    makes the decorated function return [None] after that single
    underlying call, with no sleep; nothing is asked about the retry
    list, which may hold the code as well. *)
Theorem ignored_code_returns_None_after_one_call o fn s l code e w' args fuel :
  ignore_error_codes o = Some l ->
  code ∈ read (heap s) l ->
  fn args (world s) = (Raise (ClientError e), w') ->
  has_code e code ->
  call_retry_func (S fuel) (deco o fn s).1 args (deco o fn s).2
  = Some (Return PyNone, record EvCall (set_world w' (deco o fn s).2)) /\
  log (record EvCall (set_world w' (deco o fn s).2)) = EvCall :: log s.
Proof.
  intros Hl Hin Hcall Hcode.
  destruct (deco_closure o fn s) as (Hf & Ho & Hw & Hlog).
  pose proof (deco_ignore_on o fn s l code Hl Hin) as Hign.
  split; [|simpl; by rewrite Hlog].
  rewrite call_retry_func_eq. simpl.
  rewrite (loop_body_client_error _ args 0 _ e w' code).
  - by rewrite (classify_ignore_wins _ _ _ Hign).
  - unfold fails_with. by rewrite Hf, Hw.
  - done.
Qed.

(** *** Codes in neither list, and other exceptions *)

(** C4. A failure whose code is in neither list is raised again as it
    is, the same [ClientError], after that single underlying call and
    without any sleep. *)
Theorem unlisted_code_raises_original rf args s e w' code fuel :
  fails_with rf args s e w' -> has_code e code ->
  code ∉ read (heap s) (ignore_on rf) ->
  code ∉ read (heap s) (retry_on rf) ->
  call_retry_func (S fuel) rf args s
  = Some (Raise (ClientError e), record EvCall (set_world w' s)).
Proof.
  intros Hcall Hcode Hign Hret.
  rewrite call_retry_func_eq. simpl.
  rewrite (loop_body_client_error rf args 0 s e w' code Hcall Hcode).
  unfold classify. apply py_in_false in Hign, Hret. by rewrite Hign, Hret.
Qed.

(** C10. An exception that is not a [ClientError] leaves the loop in the
    turn where it is raised, whatever [_attempts] is then: it is raised
    unchanged, the lists are not consulted and nothing sleeps. *)
Theorem other_exceptions_propagate rf args a s cls msg w' fuel :
  f rf args (world s) = (Raise (Exception cls msg), w') ->
  retry_loop (S fuel) rf args a s
  = Some (Raise (Exception cls msg), record EvCall (set_world w' s)).
Proof. intros Hcall. simpl. unfold loop_body. by rewrite Hcall. Qed.

(** *** Delays *)

(** the parts of the delay expression, in the order Python evaluates them *)
Lemma sleep_time_parts o a w0 power base u w factor d :
  py_pow (backoff_rate o) (a - max_retries_before_backoff o) = inr power ->
  py_mul (interval_seconds o) power = inr base ->
  random_uniform (py_neg (jitter o)) (jitter o) w0 = (inr u, w) ->
  py_add (PyInt 1) u = inr factor ->
  py_mul base factor = inr d ->
  sleep_time o a w0 = (inr d, w).
Proof.
  intros Hpow Hbase Hu Hfactor Hd. unfold sleep_time.
  rewrite Hpow. cbn [bind]. rewrite Hbase, Hu. cbn [bind].
  rewrite Hfactor. cbn [bind]. by rewrite Hd.
Qed.


(** *** The proxy *)

Implicit Types (self other : BotoBackoff V Args W) (ov : overrides).

(** C9, as the code has it.  For a name that the proxy does not define
    itself (it is not one of the attributes set by [__init__], not a method
    of the class, not a name that every object has) and that the client
    resolves to a plain value, the lookup on the proxy gives that value
    back through [__getattr__]; the state is the one before the lookup:
    nothing was called, decorated, classified or slept. *)
Theorem lookup_of_a_plain_attribute (object_has : string -> bool) self item v s :
  proxy_defines object_has self item = false ->
  _client self item = Some (Plain v) ->
  proxy_getattr object_has self item s = (Through (GotValue v), s).
Proof.
  intros Hown Hattr. unfold proxy_defines in Hown. unfold proxy_getattr.
  destruct (instance_attribute self item); [done|].
  apply orb_false_iff in Hown as [-> ->].
  unfold __getattr__. by rewrite Hattr.
Qed.

(** For a name that the proxy defines itself the client is not asked. *)
Lemma lookup_of_an_own_attribute (object_has : string -> bool) self item s :
  proxy_defines object_has self item = true ->
  exists a, proxy_getattr object_has self item s = (Own a, s).
Proof.
  unfold proxy_defines, proxy_getattr.
  destruct (instance_attribute self item); [by eexists|].
  destruct (bool_decide _); [by eexists|].
  destruct (object_has item); [by eexists|done].
Qed.

(** Building a proxy changes what no list holds. *)
Lemma init_frame (c : client V Args W) o s l :
  read (heap (__init__ c o s).2) l = read (heap s) l.
Proof.
  unfold __init__.
  destruct (or_new_list (added_error_codes o) s) as [l1 s1] eqn:H1.
  destruct (or_new_list (ignore_error_codes o) s1) as [l2 s2] eqn:H2.
  cbn [snd].
  pose proof (or_new_list_read (ignore_error_codes o) s1 l) as Ha.
  pose proof (or_new_list_read (added_error_codes o) s l) as Hb.
  rewrite H2 in Ha. rewrite H1 in Hb. cbn [snd] in Ha, Hb. congruence.
Qed.

(** Deriving a proxy leaves every list as it was, hence the whole
    configuration of the proxy it is derived from. *)
Lemma with_options_frame self ov s l :
  read (heap (with_options self ov s).2) l = read (heap s) l.
Proof. unfold with_options. apply init_frame. Qed.

Lemma with_options_keeps_configuration self other ov s :
  configuration other (with_options self ov s).2 = configuration other s.
Proof. unfold configuration. by rewrite !with_options_frame. Qed.

(** The lists of a new proxy hold what the lists passed in hold. *)
Lemma init_lists (c : client V Args W) o s la li :
  added_error_codes o = Some la -> ignore_error_codes o = Some li ->
  read (heap (__init__ c o s).2) (_added_backoff_error_codes (__init__ c o s).1)
  = read (heap s) la /\
  read (heap (__init__ c o s).2) (_ignore_errors (__init__ c o s).1)
  = read (heap s) li.
Proof.
  intros Ha Hi. unfold __init__. rewrite Ha, Hi.
  destruct (or_new_list (Some la) s) as [l1 s1] eqn:H1.
  destruct (or_new_list (Some li) s1) as [l2 s2] eqn:H2.
  cbn [fst snd _added_backoff_error_codes _ignore_errors].
  pose proof (or_new_list_contents la s) as Hca.
  pose proof (or_new_list_contents li s1) as Hci.
  pose proof (or_new_list_read (Some li) s1) as Hri.
  pose proof (or_new_list_read (Some la) s) as Hra.
  rewrite H1 in Hca, Hra. rewrite H2 in Hci, Hri. cbn [fst snd] in *.
  split.
  - by rewrite Hri.
  - by rewrite Hci, Hra.
Qed.

(** X19. With every override left unset, the derived proxy is configured
    as its parent, lists included, and wraps the same client. *)
Lemma with_options_unset_inherits self s :
  let ov := {| ov_interval_seconds := None; ov_max_retries := None;
               ov_backoff_rate := None; ov_jitter := None;
               ov_max_retries_before_backoff := None;
               ov_ignore_error_codes := None; ov_added_error_codes := None |} in
  configuration (with_options self ov s).1 (with_options self ov s).2
  = configuration self s /\
  _client (with_options self ov s).1 = _client self.
Proof.
  intros ov. unfold configuration, with_options.
  set (o := {| interval_seconds := _ |}).
  destruct (init_lists (_client self) o s (_added_backoff_error_codes self)
              (_ignore_errors self) eq_refl eq_refl) as [-> ->].
  split; [|unfold __init__; by repeat destruct (or_new_list _ _)].
  unfold __init__. by repeat destruct (or_new_list _ _).
Qed.

(** Field by field, the derived proxy holds [override or self._field]. *)
Lemma with_options_scalars self ov s :
  let child := (with_options self ov s).1 in
  _interval_seconds child = or_number (ov_interval_seconds ov) (_interval_seconds self) /\
  _max_retries child = or_Z (ov_max_retries ov) (_max_retries self) /\
  _backoff_rate child = or_number (ov_backoff_rate ov) (_backoff_rate self) /\
  _jitter child = or_number (ov_jitter ov) (_jitter self) /\
  _max_retries_before_backoff child
  = or_Z (ov_max_retries_before_backoff ov) (_max_retries_before_backoff self).
Proof.
  unfold with_options, __init__.
  by repeat destruct (or_new_list _ _).
Qed.

Lemma with_options_client self ov s : _client (with_options self ov s).1 = _client self.
Proof. unfold with_options, __init__. by repeat destruct (or_new_list _ _). Qed.

Lemma or_Z_nonzero z y : z <> 0 -> or_Z (Some z) y = z.
Proof.
  intros Hz. unfold or_Z, truthy_Z.
  destruct (z =? 0) eqn:Hz0; [lia | done].
Qed.

Lemma or_Z_zero y : or_Z (Some 0) y = y.
Proof. reflexivity. Qed.

Lemma or_number_truthy a y : truthy_number a = true -> or_number (Some a) y = a.
Proof. intros Ha. unfold or_number. by rewrite Ha. Qed.

Lemma or_number_falsy a y : truthy_number a = false -> or_number (Some a) y = y.
Proof. intros Ha. unfold or_number. by rewrite Ha. Qed.


(** ** Further properties of the retry loop *)

Lemma calls_cons ev lg : calls (ev :: lg) = ((if is_call ev then 1 else 0) + calls lg)%nat.
Proof. unfold calls. rewrite filter_cons. by destruct ev. Qed.

Lemma calls_app lg1 lg2 : calls (lg1 ++ lg2) = (calls lg1 + calls lg2)%nat.
Proof. unfold calls. by rewrite filter_app, length_app. Qed.

Lemma sleeps_cons ev lg :
  sleeps (ev :: lg) = if is_sleep ev then ev :: sleeps lg else sleeps lg.
Proof. unfold sleeps. rewrite filter_cons. by destruct ev. Qed.

Lemma sleeps_app lg1 lg2 : sleeps (lg1 ++ lg2) = sleeps lg1 ++ sleeps lg2.
Proof. unfold sleeps. by rewrite filter_app. Qed.

(** The arithmetic of a delay raises exceptions of built-in classes only,
    never a [ClientError]. *)
Lemma float_of_int_builtin z e : float_of_int z = inl e -> builtin e.
Proof.
  unfold float_of_int. destruct (binary_normalize _ _ _ _ _); try done.
  intros [= <-]. by do 2 eexists.
Qed.

Lemma as_float_builtin n e : as_float n = inl e -> builtin e.
Proof. destruct n; [apply float_of_int_builtin | done]. Qed.

Lemma float_op_builtin (op : spec_float -> spec_float -> spec_float) n m e :
  (do x <- as_float n; do y <- as_float m; inr (PyFloat (op x y))) = inl e -> builtin e.
Proof.
  destruct (as_float n) as [e1|x] eqn:Hn; cbn [bind].
  - intros [= <-]. by apply as_float_builtin in Hn.
  - destruct (as_float m) as [e1|y] eqn:Hm; cbn [bind]; [|done].
    intros [= <-]. by apply as_float_builtin in Hm.
Qed.

Lemma py_add_builtin n m e : py_add n m = inl e -> builtin e.
Proof. destruct n, m; try done; apply float_op_builtin. Qed.

Lemma py_sub_builtin n m e : py_sub n m = inl e -> builtin e.
Proof. destruct n, m; try done; apply float_op_builtin. Qed.

Lemma py_mul_builtin n m e : py_mul n m = inl e -> builtin e.
Proof. destruct n, m; try done; apply float_op_builtin. Qed.

Lemma of_platform_builtin {A} (c : builtin_error + A) e :
  of_platform c = inl e -> builtin e.
Proof. destruct c as [[cls msg]|]; [|done]. intros [= <-]. by do 2 eexists. Qed.

Lemma py_pow_builtin n z e : py_pow n z = inl e -> builtin e.
Proof.
  unfold py_pow. destruct n as [b|x].
  - destruct (0 <=? z); [done|].
    destruct (float_of_int b) as [e1|x] eqn:Hb; cbn [bind];
      [intros [= <-]; by apply float_of_int_builtin in Hb|].
    destruct (float_of_int z) as [e1|y] eqn:Hz; cbn [bind];
      [intros [= <-]; by apply float_of_int_builtin in Hz|].
    destruct (of_platform _) as [e1|p] eqn:Hp; cbn [bind]; [|done].
    intros [= <-]. by apply of_platform_builtin in Hp.
  - destruct (float_of_int z) as [e1|y] eqn:Hz; cbn [bind];
      [intros [= <-]; by apply float_of_int_builtin in Hz|].
    destruct (of_platform _) as [e1|p] eqn:Hp; cbn [bind]; [|done].
    intros [= <-]. by apply of_platform_builtin in Hp.
Qed.

Lemma random_uniform_builtin n m w e w' :
  random_uniform n m w = (inl e, w') -> builtin e.
Proof.
  unfold random_uniform. destruct (py_sub m n) as [e1|width] eqn:Hw.
  - intros [= <- _]. by apply py_sub_builtin in Hw.
  - destruct (random_random w) as [r w1].
    destruct (py_mul width (PyFloat r)) as [e1|scaled] eqn:Hm; cbn [bind].
    + intros [= <- _]. by apply py_mul_builtin in Hm.
    + intros [= Ha _]. by apply py_add_builtin in Ha.
Qed.

Lemma sleep_time_builtin o a w e w' :
  sleep_time o a w = (inl e, w') -> builtin e.
Proof.
  unfold sleep_time.
  destruct (py_pow _ _) as [e1|power] eqn:Hp; cbn [bind].
  { intros [= <- _]. by apply py_pow_builtin in Hp. }
  destruct (py_mul (interval_seconds o) power) as [e1|base] eqn:Hb.
  { intros [= <- _]. by apply py_mul_builtin in Hb. }
  destruct (random_uniform _ _ w) as [[e1|u] w1] eqn:Hu; cbn [bind].
  { intros [= <- _]. by apply random_uniform_builtin in Hu. }
  destruct (py_add (PyInt 1) u) as [e1|factor] eqn:Hf; cbn [bind].
  { intros [= <- _]. by apply py_add_builtin in Hf. }
  intros [= Hm _]. by apply py_mul_builtin in Hm.
Qed.

(** What a turn writes in the log: a call, and for a retry that backs off
    the sleep that follows it, of the length computed for [_attempts]. *)
Lemma loop_body_log rf args a s :
  match loop_body rf args a s with
  | Finished _ s1 => log s1 = EvCall :: log s
  | Retrying _ s1 =>
      log s1 = EvCall :: log s \/
      exists d w w1 w2,
        max_retries_before_backoff (opts rf) < a /\
        sleep_time (opts rf) a w = (inr d, w1) /\ sleeping d w1 = inr w2 /\
        log s1 = EvSleep d :: EvCall :: log s
  end.
Proof.
  unfold loop_body. destruct (f rf args (world s)) as [r w].
  destruct r as [v|[e|cls msg]]; try done.
  destruct (response_Error e) as [d|]; [|done].
  destruct (Code d) as [c|]; [|done].
  destruct (py_in c _); [done|].
  destruct (py_in c _ && _); [|done].
  unfold backoff. destruct (a >? _) eqn:Ha; [|by left].
  cbn [world record set_world].
  destruct (sleep_time (opts rf) a w) as [[e1|secs] w1] eqn:Hd; [done|].
  destruct (time_sleep _ _) as [e1|s1] eqn:Hs; [done|].
  apply time_sleep_inr in Hs as (w2 & Hs & ->).
  right. exists secs, w, w1, w2. split; [lia|]. done.
Qed.

(** A turn that ends the loop hands on what the underlying call gave, or
    [None] for an ignored error, or an exception of a built-in class that
    the handler raised itself: [KeyError] from the lookup of the code, or
    what the arithmetic of the delay or [time.sleep] raised. *)
Lemma loop_body_finished_inv rf args a s r s1 :
  loop_body rf args a s = Finished r s1 ->
  f rf args (world s) = (r, world s1) \/
  r = Return PyNone \/
  exists cls msg, r = Raise (Exception cls msg).
Proof.
  unfold loop_body. destruct (f rf args (world s)) as [r0 w].
  destruct r0 as [v|[e|cls msg]].
  - intros [= <- <-]. by left.
  - destruct (response_Error e) as [d|].
    2:{ intros [= <- <-]. right; right. by do 2 eexists. }
    destruct (Code d) as [c|].
    2:{ intros [= <- <-]. right; right. by do 2 eexists. }
    destruct (py_in c _); [intros [= <- <-]; right; by left|].
    destruct (py_in c _ && _); [|intros [= <- <-]; by left].
    unfold backoff. destruct (a >? _); [|done].
    cbn [world record set_world].
    destruct (sleep_time (opts rf) a w) as [[e1|secs] w1] eqn:Hd.
    + intros [= <- <-]. right; right.
      apply sleep_time_builtin in Hd as (cls & msg & ->). by do 2 eexists.
    + unfold time_sleep. cbn [world set_world].
      destruct (sleeping secs w1) as [[cls msg]|w2]; [|done].
      intros [= <- <-]. right; right. by do 2 eexists.
  - intros [= <- <-]. by left.
Qed.

(** Any finished run made at least one underlying call and at most one for
    each value of [_attempts] up to [max_retries + 1], and left the lists
    alone. *)
Lemma retry_loop_calls rf args fuel a s r s' :
  retry_loop fuel rf args a s = Some (r, s') ->
  heap s' = heap s /\
  (calls (log s) < calls (log s')
   <= calls (log s) + S (Z.to_nat (max_retries (opts rf) + 1 - a)))%nat.
Proof.
  revert a s. induction fuel as [|fuel IH]; intros a s; [done|]. simpl.
  pose proof (loop_body_frame rf args a s) as [Hheap Hcalls].
  destruct (loop_body rf args a s) as [r1 s1|a1 s1] eqn:Hb; simpl in Hheap, Hcalls.
  - intros [= <- <-]. split; [done|]. lia.
  - apply loop_body_retrying_inv in Hb as [-> Hle].
    intros Hrun. apply IH in Hrun as [Hheap' Hcalls'].
    split; [congruence|]. lia.
Qed.

(** X1. Whatever the underlying call does, calling the decorated function
    ends: [max_retries + 2] turns (one turn when [max_retries] is negative)
    are always enough, at least one and at most that many underlying calls
    are made, and the code lists are what they were. *)
Theorem every_call_ends_within_the_bound rf args s :
  exists r s',
    call_retry_func (S (Z.to_nat (max_retries (opts rf) + 1))) rf args s = Some (r, s') /\
    heap s' = heap s /\
    (calls (log s) < calls (log s')
     <= calls (log s) + S (Z.to_nat (max_retries (opts rf) + 1)))%nat.
Proof.
  destruct (call_retry_func_total rf args s) as [[r s'] Hrun].
  exists r, s'. split; [done|].
  rewrite call_retry_func_eq in Hrun.
  apply retry_loop_calls in Hrun as [Hheap Hcalls].
  split; [done|]. by rewrite Z.sub_0_r in Hcalls.
Qed.

(** X2. The last thing a finished run did is an underlying call, never a
    sleep, and before it there were at most as many sleeps as calls: no
    sleep follows the final attempt, and a run of n calls slept at most
    n - 1 times. *)
Theorem no_sleep_after_the_last_call rf args fuel a s r s' :
  retry_loop fuel rf args a s = Some (r, s') ->
  exists mid, log s' = EvCall :: mid ++ log s /\
              (length (sleeps mid) <= calls mid)%nat.
Proof.
  revert a s. induction fuel as [|fuel IH]; intros a s; [done|]. simpl.
  pose proof (loop_body_log rf args a s) as Hlog.
  destruct (loop_body rf args a s) as [r1 s1|a1 s1].
  - intros [= <- <-]. exists []. split; [done|]. simpl. lia.
  - intros Hrun. apply IH in Hrun as (mid & Hmid & Hcount).
    destruct Hlog as [Hlog|(d & _ & _ & _ & _ & _ & _ & Hlog)]; rewrite Hlog in Hmid.
    + exists (mid ++ [EvCall]). split; [by rewrite <- app_assoc|].
      rewrite sleeps_app, calls_app, length_app. simpl. lia.
    + exists (mid ++ [EvSleep d; EvCall]).
      split; [by rewrite <- app_assoc|].
      rewrite sleeps_app, calls_app, length_app.
      rewrite !sleeps_cons, !calls_cons. simpl. lia.
Qed.

(** X3. The wrapper passes results on and makes none up: a value other than
    [None] that it returns was returned by the last underlying call, and a
    [ClientError] that it raises was raised by the last underlying call. *)
Theorem results_come_from_the_last_call rf args fuel a s r s' :
  retry_loop fuel rf args a s = Some (r, s') ->
  match r with
  | Return (PyVal v) => exists w, f rf args w = (Return (PyVal v), world s')
  | Raise (ClientError e) => exists w, f rf args w = (Raise (ClientError e), world s')
  | _ => True
  end.
Proof.
  revert a s. induction fuel as [|fuel IH]; intros a s; [done|]. simpl.
  destruct (loop_body rf args a s) as [r1 s1|a1 s1] eqn:Hb.
  - intros [= <- <-].
    apply loop_body_finished_inv in Hb as [Hcall|[->|(cls & msg & ->)]]; [|done|done].
    destruct r1 as [[|v]|[e|cls msg]]; try done; by exists (world s).
  - apply IH.
Qed.


(** X6. A [ClientError] whose response lacks an entry that the handler
    reads ends the call with the [KeyError] of that entry, after the one
    underlying call: [KeyError('Error')] when the response has no ["Error"]
    entry, [KeyError('Code')] when it has one that has no ["Code"].  The
    lookup [e.response['Error']['Code']] is made before any code is
    classified; nothing is retried and the client error itself is not
    raised. *)
Theorem missing_code_raises_KeyError rf args a s e w' fuel :
  f rf args (world s) = (Raise (ClientError e), w') ->
  (response_Error e = None ->
   retry_loop (S fuel) rf args a s
   = Some (Raise (Exception "KeyError" "Error"), record EvCall (set_world w' s))) /\
  (forall d, response_Error e = Some d -> Code d = None ->
   retry_loop (S fuel) rf args a s
   = Some (Raise (Exception "KeyError" "Code"), record EvCall (set_world w' s))).
Proof.
  intros Hcall. split.
  - intros He. simpl. unfold loop_body. by rewrite Hcall, He.
  - intros d He Hc. simpl. unfold loop_body. by rewrite Hcall, He, Hc.
Qed.

(** X7. A retry whose delay cannot be computed or slept ends the call
    there: when the delay expression raises, or [time.sleep] refuses the
    delay (a negative or an out-of-range length), the decorated call raises
    that exception after the underlying call of this turn; it does not
    retry, records no sleep, and does not raise the client's error. *)
Theorem failed_pause_ends_the_call rf args a s e w1 code fuel :
  fails_with rf args s e w1 -> has_code e code ->
  code ∈ read (heap s) (retry_on rf) ->
  code ∉ read (heap s) (ignore_on rf) ->
  max_retries_before_backoff (opts rf) < a <= max_retries (opts rf) ->
  (forall exc w2, sleep_time (opts rf) a w1 = (inl exc, w2) ->
     retry_loop (S fuel) rf args a s
     = Some (Raise exc, record EvCall (set_world w2 s))) /\
  (forall d w2 b, sleep_time (opts rf) a w1 = (inr d, w2) -> sleeping d w2 = inl b ->
     retry_loop (S fuel) rf args a s
     = Some (Raise (raised b), record EvCall (set_world w2 s))).
Proof.
  intros Hcall Hcode Hret Hign [Hlo Hhi].
  assert (Hturn : loop_body rf args a s
                  = backoff (opts rf) a (record EvCall (set_world w1 s))).
  { rewrite (loop_body_client_error rf args a s e w1 code Hcall Hcode).
    unfold classify. apply py_in_true in Hret. apply py_in_false in Hign.
    rewrite Hign, Hret. cbv zeta.
    by assert ((a >? max_retries (opts rf)) = false) as -> by lia. }
  split.
  - intros exc w2 Hd. simpl. rewrite Hturn.
    by rewrite (backoff_failed _ a (record EvCall (set_world w1 s)) exc w2 Hlo Hd).
  - intros d w2 b Hd Hs. simpl. rewrite Hturn.
    by rewrite (backoff_refused _ a (record EvCall (set_world w1 s)) d w2 b Hlo Hd Hs).
Qed.

(** With [max_retries <= max_retries_before_backoff] no turn sleeps. *)
Lemma loop_body_no_sleep rf args a s :
  max_retries (opts rf) <= max_retries_before_backoff (opts rf) ->
  sleeps (log (turn_state (loop_body rf args a s))) = sleeps (log s).
Proof.
  intros Hle. pose proof (loop_body_log rf args a s) as Hlog.
  destruct (loop_body rf args a s) as [r1 s1|a1 s1] eqn:Hb; simpl.
  - by rewrite Hlog, sleeps_cons.
  - apply loop_body_retrying_inv in Hb as [_ Ha].
    destruct Hlog as [Hlog|(d & w & w1 & w2 & Hlt & _)]; [|lia].
    by rewrite Hlog, sleeps_cons.
Qed.

(** X8. When [max_retries_before_backoff] is at least [max_retries], a call
    never sleeps, whatever the underlying call does: every retry is
    immediate. *)
Theorem no_backoff_means_no_sleep rf args fuel a s r s' :
  max_retries (opts rf) <= max_retries_before_backoff (opts rf) ->
  retry_loop fuel rf args a s = Some (r, s') ->
  sleeps (log s') = sleeps (log s).
Proof.
  intros Hle. revert a s. induction fuel as [|fuel IH]; intros a s; [done|]. simpl.
  pose proof (loop_body_no_sleep rf args a s Hle) as Hno.
  destruct (loop_body rf args a s) as [r1 s1|a1 s1]; simpl in Hno.
  - by intros [= <- <-].
  - intros Hrun. apply IH in Hrun. congruence.
Qed.

(** X9. Every sleep of a run, entered with [_attempts = a], is the delay
    that the delay expression gave for a value [k] of [_attempts] from [a]
    on that is above [max_retries_before_backoff] and at most
    [max_retries], and that [time.sleep] accepted: the run sleeps nothing
    else. *)
Theorem every_sleep_is_a_computed_delay rf args fuel a s r s' :
  retry_loop fuel rf args a s = Some (r, s') ->
  exists new, log s' = new ++ log s /\
    forall d, EvSleep d ∈ new ->
      exists k w w1 w2,
        a <= k <= max_retries (opts rf) /\
        max_retries_before_backoff (opts rf) < k /\
        sleep_time (opts rf) k w = (inr d, w1) /\
        sleeping d w1 = inr w2.
Proof.
  revert a s. induction fuel as [|fuel IH]; intros a s; [done|]. simpl.
  pose proof (loop_body_log rf args a s) as Hlog.
  destruct (loop_body rf args a s) as [r1 s1|a1 s1] eqn:Hb.
  - intros [= <- <-]. exists [EvCall]. split; [done|].
    intros d Hd. apply list_elem_of_singleton in Hd. done.
  - apply loop_body_retrying_inv in Hb as [-> Ha].
    intros Hrun. apply IH in Hrun as (new & Hnew & Hall).
    assert (Hlater : forall d, EvSleep d ∈ new ->
              exists k w w1 w2,
                a <= k <= max_retries (opts rf) /\
                max_retries_before_backoff (opts rf) < k /\
                sleep_time (opts rf) k w = (inr d, w1) /\
                sleeping d w1 = inr w2).
    { intros d Hd. destruct (Hall d Hd) as (k & w & w1 & w2 & Hk & Hrest).
      exists k, w, w1, w2. split; [lia | done]. }
    destruct Hlog as [Hlog|(d0 & w & w1 & w2 & Hlt & Hd0 & Hs0 & Hlog)];
      rewrite Hlog in Hnew.
    + exists (new ++ [EvCall]). split; [by rewrite <- app_assoc|].
      intros d Hd. apply elem_of_app in Hd as [Hd|Hd]; [by apply Hlater|].
      apply list_elem_of_singleton in Hd. done.
    + exists (new ++ [EvSleep d0; EvCall]).
      split; [by rewrite <- app_assoc|].
      intros d Hd. apply elem_of_app in Hd as [Hd|Hd]; [by apply Hlater|].
      apply elem_of_cons in Hd as [[= ->]|Hd].
      * exists a, w, w1, w2. split; [lia|]. done.
      * apply list_elem_of_singleton in Hd. done.
Qed.

(** ** Further properties of the decorator *)

(** [x or []] is [x] itself when [x] is a list that holds something, and a
    list that did not exist before otherwise. *)
Lemma or_new_list_cases x s :
  (exists l, x = Some l /\ read (heap s) l <> [] /\ or_new_list x s = (l, s)) \/
  ((forall l, x = Some l -> read (heap s) l = []) /\ or_new_list x s = new_list s).
Proof.
  destruct x as [l|]; [|by right].
  unfold or_new_list. destruct (read (heap s) l) as [|c lst] eqn:Hl.
  - right. split; [|done]. by intros ? [= <-].
  - left. exists l. by rewrite Hl.
Qed.

Lemma deco_frame o fn s :
  (forall l, l <> retry_on (deco o fn s).1 ->
             read (heap (deco o fn s).2) l = read (heap s) l) /\
  (added_error_codes o = Some (retry_on (deco o fn s).1) /\
   read (heap s) (retry_on (deco o fn s).1) <> [] \/
   heap s !! retry_on (deco o fn s).1 = None).
Proof.
  unfold deco.
  destruct (or_new_list (added_error_codes o) s) as [l1 s1] eqn:H1.
  destruct (or_new_list (ignore_error_codes o) _) as [l2 s3] eqn:H2.
  cbn [fst snd retry_on]. split.
  - intros l Hne.
    pose proof (or_new_list_read (ignore_error_codes o)
                  (extend l1 (read (heap s1) table) s1) l) as Hr2.
    pose proof (or_new_list_read (added_error_codes o) s l) as Hr1.
    rewrite H2 in Hr2. rewrite H1 in Hr1. cbn [snd] in Hr1, Hr2.
    rewrite Hr2, extend_read, decide_False by done. done.
  - destruct (or_new_list_cases (added_error_codes o) s)
      as [(l & Hl & Hne & Heq)|[_ Heq]]; rewrite Heq in H1.
    + injection H1 as <- <-. by left.
    + right. injection H1 as <- _. apply new_list_fresh.
Qed.

(** A list of the caller's that holds something becomes [retry_on]
    itself. *)
Lemma deco_retry_loc o fn s la :
  added_error_codes o = Some la -> read (heap s) la <> [] ->
  retry_on (deco o fn s).1 = la.
Proof.
  intros Ha Hne. unfold deco. rewrite Ha. unfold or_new_list at 1.
  destruct (read (heap s) la) as [|c lst]; [done|]. cbn [truthy_list].
  by destruct (or_new_list _ _).
Qed.

(** What [ignore_on] holds was in the caller's ignore list before, unless
    that list is the one that became [retry_on] and was extended. *)
Lemma deco_ignore_on_inv o fn s code :
  code ∈ read (heap (deco o fn s).2) (ignore_on (deco o fn s).1) ->
  exists li, ignore_error_codes o = Some li /\
             ((code ∈ read (heap s) li) \/ li = retry_on (deco o fn s).1).
Proof.
  unfold deco.
  destruct (or_new_list (added_error_codes o) s) as [l1 s1] eqn:H1.
  destruct (or_new_list (ignore_error_codes o) _) as [l2 s3] eqn:H2.
  cbn [fst snd retry_on ignore_on].
  pose proof (or_new_list_read (added_error_codes o) s) as Hr1.
  rewrite H1 in Hr1. cbn [snd] in Hr1.
  destruct (ignore_error_codes o) as [li|].
  - pose proof (or_new_list_contents li (extend l1 (read (heap s1) table) s1)) as Hc.
    rewrite H2 in Hc. cbn [fst snd] in Hc. rewrite Hc, extend_read.
    intros Hin. exists li. split; [done|].
    case_decide as Heq; [by right|]. left. by rewrite <- Hr1.
  - pose proof (or_new_list_None_contents (extend l1 (read (heap s1) table) s1)) as Hc.
    rewrite H2 in Hc. cbn [fst snd] in Hc. rewrite Hc.
    intros Hin. by apply elem_of_nil in Hin.
Qed.

(** A failure with a code that is in [retry_on] and not in [ignore_on],
    met with [_attempts <= max_retries], is retried: at once while
    [_attempts <= max_retries_before_backoff], and after the sleep of the
    computed delay above it. *)
Lemma loop_body_retries rf args a s e w' code :
  fails_with rf args s e w' -> has_code e code ->
  code ∈ read (heap s) (retry_on rf) ->
  code ∉ read (heap s) (ignore_on rf) ->
  a <= max_retries (opts rf) ->
  (a <= max_retries_before_backoff (opts rf) ->
   loop_body rf args a s = Retrying (a + 1) (record EvCall (set_world w' s))) /\
  (max_retries_before_backoff (opts rf) < a ->
   forall d w2 w3,
     sleep_time (opts rf) a w' = (inr d, w2) -> sleeping d w2 = inr w3 ->
     loop_body rf args a s
     = Retrying (a + 1)
         (record (EvSleep d) (set_world w3 (record EvCall (set_world w' s))))).
Proof.
  intros Hcall Hcode Hret Hign Ha.
  assert (Hturn : loop_body rf args a s
                  = backoff (opts rf) a (record EvCall (set_world w' s))).
  { rewrite (loop_body_client_error rf args a s e w' code Hcall Hcode).
    unfold classify. apply py_in_true in Hret. apply py_in_false in Hign.
    rewrite Hign, Hret. cbv zeta.
    by assert ((a >? max_retries (opts rf)) = false) as -> by lia. }
  rewrite Hturn. split.
  - intros Hle. by apply backoff_below.
  - intros Hlt d w2 w3 Hd Hs.
    by apply (backoff_slept _ a (record EvCall (set_world w' s)) d w2 w3).
Qed.

(** The decorated function retries the codes of the module's table and the
    codes of the caller's added list, unless the caller's ignore list holds
    the code or is the list that became [retry_on]. *)
Lemma deco_retries o fn s code :
  ((code ∈ read (heap s) table) \/
   exists la, added_error_codes o = Some la /\ code ∈ read (heap s) la) ->
  (forall li, ignore_error_codes o = Some li ->
     li <> retry_on (deco o fn s).1 /\ code ∉ read (heap s) li) ->
  code ∈ read (heap (deco o fn s).2) (retry_on (deco o fn s).1) /\
  (code ∉ read (heap (deco o fn s).2) (ignore_on (deco o fn s).1)) /\
  forall args a s2 e w',
    heap s2 = heap (deco o fn s).2 ->
    fn args (world s2) = (Raise (ClientError e), w') -> has_code e code ->
    a <= max_retries o ->
    (a <= max_retries_before_backoff o ->
     loop_body (deco o fn s).1 args a s2
     = Retrying (a + 1) (record EvCall (set_world w' s2))) /\
    (max_retries_before_backoff o < a ->
     forall d w2 w3,
       sleep_time o a w' = (inr d, w2) -> sleeping d w2 = inr w3 ->
       loop_body (deco o fn s).1 args a s2
       = Retrying (a + 1)
           (record (EvSleep d) (set_world w3 (record EvCall (set_world w' s2))))).
Proof.
  intros Hlisted Hign.
  assert (Hmem : code ∈ read (heap (deco o fn s).2) (retry_on (deco o fn s).1)).
  { destruct (deco_retry_on o fn s) as (lst & -> & Hsome & _).
    apply elem_of_app. destruct Hlisted as [Ht|(la & Hla & Hin)]; [by right|].
    left. by rewrite (Hsome la Hla). }
  assert (Hnot : code ∉ read (heap (deco o fn s).2) (ignore_on (deco o fn s).1)).
  { intros Hin. apply deco_ignore_on_inv in Hin as (li & Hli & Hcase).
    destruct (Hign li Hli) as [Hne Hout]. by destruct Hcase. }
  split; [done|]. split; [done|].
  intros args a s2 e w' Hheap Hcall Hcode Ha.
  destruct (deco_closure o fn s) as (Hf & Ho & _).
  pose proof (loop_body_retries (deco o fn s).1 args a s2 e w' code) as Hturn.
  rewrite Ho, Hheap in Hturn. apply Hturn; try done.
  unfold fails_with. by rewrite Hf.
Qed.

(** X11. Codes the caller adds are retried: for a code held by the
    [added_error_codes] list, with an ignore list (if any) that is another
    list object and does not hold the code, the code is in [retry_on] and
    not in [ignore_on], and a failure carrying it, met with
    [_attempts <= max_retries], goes round the loop again with
    [_attempts + 1]: at once while [_attempts <= max_retries_before_backoff],
    after the sleep of the computed delay above it. *)
Theorem added_codes_are_retried o fn s la code :
  added_error_codes o = Some la ->
  code ∈ read (heap s) la ->
  (forall li, ignore_error_codes o = Some li -> li <> la /\ code ∉ read (heap s) li) ->
  code ∈ read (heap (deco o fn s).2) (retry_on (deco o fn s).1) /\
  (code ∉ read (heap (deco o fn s).2) (ignore_on (deco o fn s).1)) /\
  forall args a s2 e w',
    heap s2 = heap (deco o fn s).2 ->
    fn args (world s2) = (Raise (ClientError e), w') -> has_code e code ->
    a <= max_retries o ->
    (a <= max_retries_before_backoff o ->
     loop_body (deco o fn s).1 args a s2
     = Retrying (a + 1) (record EvCall (set_world w' s2))) /\
    (max_retries_before_backoff o < a ->
     forall d w2 w3,
       sleep_time o a w' = (inr d, w2) -> sleeping d w2 = inr w3 ->
       loop_body (deco o fn s).1 args a s2
       = Retrying (a + 1)
           (record (EvSleep d) (set_world w3 (record EvCall (set_world w' s2))))).
Proof.
  intros Hla Hin Hign. apply deco_retries.
  - right. by exists la.
  - intros li Hli. destruct (Hign li Hli) as [Hne Hout]. split; [|done].
    rewrite (deco_retry_loc o fn s la Hla); [done|].
    intros Hempty. rewrite Hempty in Hin. by apply elem_of_nil in Hin.
Qed.

(** X12. Decorating calls nothing and sleeps for nothing, and it changes
    one list at most, the one that becomes [retry_on]: that is the caller's
    [added_error_codes] list when it holds something, and otherwise a list
    that did not exist before. *)
Theorem decorating_changes_one_list_at_most o fn s :
  world (deco o fn s).2 = world s /\ log (deco o fn s).2 = log s /\
  (forall l, l <> retry_on (deco o fn s).1 ->
             read (heap (deco o fn s).2) l = read (heap s) l) /\
  (added_error_codes o = Some (retry_on (deco o fn s).1) /\
   read (heap s) (retry_on (deco o fn s).1) <> [] \/
   heap s !! retry_on (deco o fn s).1 = None).
Proof.
  destruct (deco_closure o fn s) as (_ & _ & Hw & Hlog).
  destruct (deco_frame o fn s) as [Hframe Hwhich].
  done.
Qed.


(** ** Further properties of the proxy *)

Lemma init_world_log (c : client V Args W) o s :
  world (__init__ c o s).2 = world s /\ log (__init__ c o s).2 = log s.
Proof.
  unfold __init__.
  destruct (or_new_list (added_error_codes o) s) as [l1 s1] eqn:H1.
  destruct (or_new_list (ignore_error_codes o) s1) as [l2 s2] eqn:H2.
  cbn [snd].
  pose proof (or_new_list_world_log (added_error_codes o) s) as Ha.
  pose proof (or_new_list_world_log (ignore_error_codes o) s1) as Hb.
  rewrite H1 in Ha. rewrite H2 in Hb. cbn [snd] in Ha, Hb.
  destruct Ha as [Ha1 Ha2], Hb as [Hb1 Hb2]. split; congruence.
Qed.

(** A lookup on the proxy leaves the world and the log as they are. *)
Lemma getattr_world_log self item s :
  world (__getattr__ self item s).2 = world s /\
  log (__getattr__ self item s).2 = log s.
Proof.
  unfold __getattr__. destruct (_client self item) as [[v|fn]|]; [done| |done].
  set (o := {| interval_seconds := _ |}).
  destruct (deco_closure o (fun api_kwargs => fn api_kwargs) s) as (_ & _ & Hw & Hlog).
  by destruct (deco o _ s).
Qed.

(** X14. Looking a name up on the proxy never calls the client's operation
    and never sleeps, whatever the name resolves to: the operation runs
    only when the function that the lookup returns is called. *)
Theorem lookup_calls_nothing self item s :
  world (__getattr__ self item s).2 = world s /\
  log (__getattr__ self item s).2 = log s.
Proof. apply getattr_world_log. Qed.


(** X17. On a proxy whose added-codes list is empty, a lookup leaves every
    existing list as it was: the decorator then works on a list of its
    own. *)
Theorem lookup_without_added_codes_changes_no_list self item s l :
  read (heap s) (_added_backoff_error_codes self) = [] ->
  is_Some (heap s !! l) ->
  read (heap (__getattr__ self item s).2) l = read (heap s) l.
Proof.
  intros Hempty Hl. unfold __getattr__.
  destruct (_client self item) as [[v|fn]|]; [done| |done].
  set (o := {| interval_seconds := _ |}).
  destruct (deco_frame o (fun api_kwargs => fn api_kwargs) s) as [Hframe Hwhich].
  destruct (deco o _ s) as [rf s1]. cbn [fst snd] in *.
  apply Hframe. intros ->.
  destruct Hwhich as [[[= Heq] Hne]|Hnone].
  - rewrite <- Heq in Hne. done.
  - rewrite Hnone in Hl. by destruct Hl.
Qed.

(** X18. Deriving a proxy with [with_options] calls nothing, sleeps for
    nothing and changes no list: the configuration of every proxy, the one
    derived from included, is what it was. *)
Theorem with_options_changes_nothing self other ov s :
  configuration other (with_options self ov s).2 = configuration other s /\
  world (with_options self ov s).2 = world s /\
  log (with_options self ov s).2 = log s.
Proof.
  split.
  - unfold configuration. by rewrite !with_options_frame.
  - unfold with_options. apply init_world_log.
Qed.

(** X20. An override that is given and is not zero is taken, each field
    on its own and whatever the other overrides are: the derived proxy has
    that value for the field, whatever its parent had; and it wraps the
    parent's client. *)
Theorem nonzero_overrides_are_taken self ov s :
  (forall i, ov_interval_seconds ov = Some i -> truthy_number i = true ->
             _interval_seconds (with_options self ov s).1 = i) /\
  (forall m, ov_max_retries ov = Some m -> m <> 0 ->
             _max_retries (with_options self ov s).1 = m) /\
  (forall b, ov_backoff_rate ov = Some b -> truthy_number b = true ->
             _backoff_rate (with_options self ov s).1 = b) /\
  (forall j, ov_jitter ov = Some j -> truthy_number j = true ->
             _jitter (with_options self ov s).1 = j) /\
  (forall k, ov_max_retries_before_backoff ov = Some k -> k <> 0 ->
             _max_retries_before_backoff (with_options self ov s).1 = k) /\
  _client (with_options self ov s).1 = _client self.
Proof.
  destruct (with_options_scalars self ov s) as (H1 & H2 & H3 & H4 & H5).
  split; [|split; [|split; [|split; [|split]]]].
  - intros i Hi Hi0. by rewrite H1, Hi, or_number_truthy.
  - intros m Hm Hm0. by rewrite H2, Hm, or_Z_nonzero.
  - intros b Hb Hb0. by rewrite H3, Hb, or_number_truthy.
  - intros j Hj Hj0. by rewrite H4, Hj, or_number_truthy.
  - intros k Hk Hk0. by rewrite H5, Hk, or_Z_nonzero.
  - apply with_options_client.
Qed.

(** X21. An empty list given as [ignore_error_codes] to [with_options] is
    taken for an override left unset: the derived proxy ignores what its
    parent ignores, so the ignore list cannot be emptied this way. *)
Theorem empty_ignore_override_is_taken_as_unset self ov s l :
  ov_ignore_error_codes ov = Some l ->
  read (heap s) l = [] ->
  read (heap (with_options self ov s).2) (_ignore_errors (with_options self ov s).1)
  = read (heap s) (_ignore_errors self).
Proof.
  intros Hov Hempty. unfold with_options.
  set (o := {| interval_seconds := _ |}).
  destruct (init_lists (_client self) o s
              (or_list (heap s) (ov_added_error_codes ov) (_added_backoff_error_codes self))
              (or_list (heap s) (ov_ignore_error_codes ov) (_ignore_errors self))
              eq_refl eq_refl) as [_ ->].
  unfold or_list. by rewrite Hov, Hempty.
Qed.

(** X22. [with_options] never copies a list.  The derived proxy holds the
    very list object given as [added_error_codes], or else its parent's,
    whenever that list holds something: what is later appended to it shows
    in both. *)
Theorem derived_proxy_holds_the_same_list self ov s :
  read (heap s)
       (or_list (heap s) (ov_added_error_codes ov) (_added_backoff_error_codes self)) <> [] ->
  _added_backoff_error_codes (with_options self ov s).1
  = or_list (heap s) (ov_added_error_codes ov) (_added_backoff_error_codes self).
Proof.
  intros Hne. unfold with_options, __init__.
  cbn [added_error_codes ignore_error_codes].
  set (l := or_list (heap s) (ov_added_error_codes ov) (_added_backoff_error_codes self)) in *.
  unfold or_new_list at 1.
  destruct (read (heap s) l) as [|c lst] eqn:Hl; [done|]. cbn [truthy_list].
  by destruct (or_new_list _ s).
Qed.

(** X24. A proxy built without code lists gets two new, empty lists of its
    own, distinct from each other and from every list that existed; no
    existing list changes. *)
Theorem proxy_without_lists_gets_its_own (c : client V Args W) o s :
  added_error_codes o = None -> ignore_error_codes o = None ->
  let p := (__init__ c o s).1 in
  let s1 := (__init__ c o s).2 in
  heap s !! _added_backoff_error_codes p = None /\
  heap s !! _ignore_errors p = None /\
  _added_backoff_error_codes p <> _ignore_errors p /\
  heap s1 !! _added_backoff_error_codes p = Some [] /\
  heap s1 !! _ignore_errors p = Some [] /\
  forall l, read (heap s1) l = read (heap s) l.
Proof.
  intros Ha Hi p s1. unfold p, s1, __init__. rewrite Ha, Hi.
  cbn [or_new_list new_list set_heap heap fst snd
       _added_backoff_error_codes _ignore_errors].
  set (l1 := fresh (dom (heap s))).
  set (l2 := fresh (dom (<[l1:=[]]> (heap s)))).
  assert (H1 : heap s !! l1 = None) by apply not_elem_of_dom, is_fresh.
  assert (H2 : <[l1:=[]]> (heap s) !! l2 = None) by apply not_elem_of_dom, is_fresh.
  assert (Hne : l1 <> l2).
  { intros Heq. rewrite <- Heq, lookup_insert_eq in H2. done. }
  split; [done|]. split.
  { by rewrite lookup_insert_ne in H2. }
  split; [done|]. split.
  { by rewrite lookup_insert_ne, lookup_insert_eq. }
  split; [by rewrite lookup_insert_eq|].
  intros l. pose proof (init_frame c o s l) as Hframe.
  unfold __init__ in Hframe. rewrite Ha, Hi in Hframe. exact Hframe.
Qed.

(** X23. Used as a context manager the proxy changes nothing: the block is
    given the proxy itself, whatever the block returns or raises comes out
    as it is (no exception is swallowed), and the state is the one the
    block left. *)
Theorem with_statement_is_its_block (truth : V -> bool) self
        (body : BotoBackoff V Args W -> state -> outcome V * state) s :
  with_statement truth self body s = body self s.
Proof.
  unfold with_statement, __enter__, __exit__.
  destruct (body self s) as [[v|e] s2]; done.
Qed.


End Properties.

(** * The scenarios, run *)

Import Scenario.

(** membership of a given code in a given list *)
Ltac given_member := apply py_in_true; vm_compute; reflexivity.
Ltac given_non_member := apply py_in_false; vm_compute; reflexivity.

(** the throttled operation fails retryably in every world *)
Ltac throttled_every_time :=
  intros w;
  exists throttling, "ThrottlingException"%string, (S w);
  split; [reflexivity|]; split; [by eexists|];
  split; [given_member | given_non_member].

(** a given run finishes: its result and final state are named *)
Ltac name_the_run Hrun :=
  match goal with
  | |- context [retry_loop ?d ?p ?sl ?n ?rf ?args ?a ?s] =>
      destruct (retry_loop d p sl n rf args a s) as [[? ?]|] eqn:Hrun;
      [|vm_compute in Hrun; discriminate]
  end.



(** ["RequestLimitExceeded"], a built-in retry code, put in the ignore
    list. *)
Lemma ignored_code_witness :
  ignore_error_codes ignoring = Some 1%nat /\
  "RequestLimitExceeded"%string ∈ read (heap ignoring_state) 1%nat /\
  always_limited tt (world ignoring_state) = (Raise (ClientError limit_exceeded), 1%nat) /\
  has_code limit_exceeded "RequestLimitExceeded" /\
  call_retry_func draw pow sleep 1 (deco ignoring always_limited ignoring_state).1 tt
    (deco ignoring always_limited ignoring_state).2
  = Some (Return PyNone,
          record EvCall (set_world 1%nat (deco ignoring always_limited ignoring_state).2)) /\
  log (record EvCall (set_world 1%nat (deco ignoring always_limited ignoring_state).2))
  = EvCall :: log ignoring_state.
Proof.
  assert (Hopt : ignore_error_codes ignoring = Some 1%nat) by reflexivity.
  assert (Hin : "RequestLimitExceeded"%string ∈ read (heap ignoring_state) 1%nat)
    by given_member.
  assert (Hcall : always_limited tt (world ignoring_state)
                  = (Raise (ClientError limit_exceeded), 1%nat)) by reflexivity.
  assert (Hcode : has_code limit_exceeded "RequestLimitExceeded") by (by eexists).
  repeat (split; [assumption|]).
  exact (ignored_code_returns_None_after_one_call draw pow sleep ignoring always_limited
           ignoring_state 1%nat "RequestLimitExceeded" limit_exceeded 1%nat tt 0%nat
           Hopt Hin Hcall Hcode).
Defined.

(** C3 against the code: the caller's list [["Foo"]] is given both as
    [added_error_codes] and as [ignore_error_codes].  ["ThrottlingException"]
    is in the built-in table and not in the ignore list that the caller
    gave; but [deco] extends the added list in place, the ignore list is
    that same object, and the failure is classified IGNORE: the decorated
    call returns [None] after one underlying call instead of retrying. *)
Theorem builtin_code_is_ignored_through_a_shared_list :
  let rf := (deco foo_twice always_throttled caller_state).1 in
  let s1 := (deco foo_twice always_throttled caller_state).2 in
  "ThrottlingException"%string ∈ DEFAULT_RETRY_ERROR_CODES /\
  read (heap caller_state) table = DEFAULT_RETRY_ERROR_CODES /\
  added_error_codes foo_twice = Some 1%nat /\
  ignore_error_codes foo_twice = Some 1%nat /\
  read (heap caller_state) 1%nat = ["Foo"%string] /\
  always_throttled tt (world s1) = (Raise throttled, 1%nat) /\
  classify (read (heap s1) (ignore_on rf)) (read (heap s1) (retry_on rf))
    "ThrottlingException" = IGNORE /\
  summary (call_retry_func draw pow sleep 1 rf tt s1) = Some (Return PyNone, 1%nat, []) /\
  read (heap s1) 1%nat = "Foo"%string :: DEFAULT_RETRY_ERROR_CODES.
Proof.
  cbv zeta. split; [given_member|].
  repeat (split; [vm_compute; reflexivity|]). vm_compute; reflexivity.
Qed.

(** ["AccessDenied"] with [max_retries = 1]. *)
Lemma unlisted_code_witness :
  fails_with denied_func tt denied_state access_denied 1%nat /\
  has_code access_denied "AccessDenied" /\
  ("AccessDenied"%string ∉ read (heap denied_state) (ignore_on denied_func)) /\
  ("AccessDenied"%string ∉ read (heap denied_state) (retry_on denied_func)) /\
  call_retry_func draw pow sleep 1 denied_func tt denied_state
  = Some (Raise (ClientError access_denied), record EvCall (set_world 1%nat denied_state)).
Proof.
  assert (Hcall : fails_with denied_func tt denied_state access_denied 1%nat) by reflexivity.
  assert (Hcode : has_code access_denied "AccessDenied") by (by eexists).
  assert (Hign : "AccessDenied"%string ∉ read (heap denied_state) (ignore_on denied_func))
    by given_non_member.
  assert (Hret : "AccessDenied"%string ∉ read (heap denied_state) (retry_on denied_func))
    by given_non_member.
  repeat (split; [assumption|]).
  exact (unlisted_code_raises_original draw pow sleep denied_func tt denied_state
           access_denied 1%nat "AccessDenied" 0%nat Hcall Hcode Hign Hret).
Defined.

(** A connection failure raised as a plain exception, with three retries
    left. *)
Lemma other_exceptions_witness :
  f (deco defaults always_unreachable empty_state).1 tt
    (world (deco defaults always_unreachable empty_state).2)
  = (Raise (Exception "EndpointConnectionError" "Could not connect"), 1%nat) /\
  retry_loop draw pow sleep 1 (deco defaults always_unreachable empty_state).1 tt 0
    (deco defaults always_unreachable empty_state).2
  = Some (Raise (Exception "EndpointConnectionError" "Could not connect"),
          record EvCall (set_world 1%nat (deco defaults always_unreachable empty_state).2)).
Proof.
  assert (Hcall : f (deco defaults always_unreachable empty_state).1 tt
                    (world (deco defaults always_unreachable empty_state).2)
                  = (Raise (Exception "EndpointConnectionError" "Could not connect"), 1%nat))
    by reflexivity.
  split; [assumption|].
  exact (other_exceptions_propagate draw pow sleep
           (deco defaults always_unreachable empty_state).1 tt 0
           (deco defaults always_unreachable empty_state).2
           "EndpointConnectionError" "Could not connect" 1%nat 0%nat Hcall).
Defined.



(** The delay is a float, rounded at every step: with
    [interval_seconds = 0.1], [backoff_rate = 3] and [jitter = 0] the first
    delay is [0.1 * 3 = 0.30000000000000004], which is more than three
    tenths. *)
Example delay_is_a_rounded_float :
  exists d q,
    sleep_time draw pow rounding 1 0%nat = (inr d, 0%nat) /\
    d = PyFloat (S754_finite false 5404319552844596 (-54)) /\
    number_value d = Some q /\ (3 # 10 < q)%Q.
Proof.
  eexists _, _. split; [vm_compute; reflexivity|].
  split; [reflexivity|]. split; [reflexivity|]. vm_compute. reflexivity.
Qed.

(** With a float rate the power is a float power: [0.2 * 1.5 ** 2] with a
    jitter value of 0.0 is 0.45. *)
Example float_rate_delay :
  sleep_time draw pow float_rate 2 0%nat
  = (inr (PyFloat (S754_finite false 8106479329266893 (-54))), 0%nat).
Proof. vm_compute. reflexivity. Qed.

(** The plain attribute [meta] of the client, which the proxy does not
    define. *)
Lemma plain_attribute_witness :
  proxy_defines object_has proxy "meta" = false /\
  _client proxy "meta" = Some (Plain 7%nat) /\
  proxy_getattr object_has proxy "meta" proxy_state = (Through (GotValue 7%nat), proxy_state).
Proof.
  assert (Hown : proxy_defines object_has proxy "meta" = false) by (vm_compute; reflexivity).
  assert (Hattr : _client proxy "meta" = Some (Plain 7%nat)) by (vm_compute; reflexivity).
  repeat (split; [assumption|]).
  exact (lookup_of_a_plain_attribute object_has proxy "meta" 7%nat proxy_state Hown Hattr).
Defined.

(** C9, as worded, fails for a name that the proxy defines itself: on a
    client with a plain attribute [_max_retries] holding 7, the lookup of
    [_max_retries] on the proxy gives the proxy's own setting, 3, and
    [__getattr__] is not called. *)
Lemma proxy_setting_hides_client_attribute :
  _client odd_proxy "_max_retries" = Some (Plain 7%nat) /\
  proxy_getattr object_has odd_proxy "_max_retries" odd_state
  = (Own (OwnInt 3), odd_state) /\
  proxy_getattr object_has odd_proxy "_max_retries" odd_state
  <> (Through (GotValue 7%nat), odd_state).
Proof.
  split; [vm_compute; reflexivity|].
  assert (Hown : proxy_getattr object_has odd_proxy "_max_retries" odd_state
                 = (Own (OwnInt 3), odd_state)) by (vm_compute; reflexivity).
  split; [assumption|]. rewrite Hown. discriminate.
Qed.

(** The repository's own tests, replayed on the model. *)

(** [test__botobackoff_retry_once]: the count is 2. *)
Example test_retry_once :
  summary (run one_retry throttled_once 2) = Some (Return (PyVal 1%nat), 2%nat, []).
Proof. vm_compute. reflexivity. Qed.

(** [test_botobackoff_ignore_errors]: the decorated function returns [None]. *)
Example test_ignore_errors :
  summary (call_retry_func draw pow sleep 1
             (deco ignoring always_limited ignoring_state).1 tt
             (deco ignoring always_limited ignoring_state).2)
  = Some (Return PyNone, 1%nat, []).
Proof. vm_compute. reflexivity. Qed.

(** [test__unhandled_error]: the count is 1 and the code is AccessDenied. *)
Example test_unhandled_error :
  summary (run one_retry always_denied 1)
  = Some (Raise (ClientError access_denied), 1%nat, []).
Proof. vm_compute. reflexivity. Qed.

(** The default options against an operation that is always throttled:
    five calls, and the sleeps 0.4, 0.8 and 1.6 (newest first). *)
Example default_run :
  summary (run defaults always_throttled 5)
  = Some (Raise throttled, 5%nat,
          [EvSleep (PyFloat (S754_finite false 7205759403792794 (-52)));
           EvSleep (PyFloat eight_tenths);
           EvSleep (PyFloat four_tenths)]).
Proof. vm_compute. reflexivity. Qed.

(** With [interval_seconds = 1e10] the second failure asks for a sleep of
    2e10 seconds, which [time.sleep] refuses with [OverflowError]: two
    calls. *)
Example huge_interval_run :
  summary (run huge_interval always_throttled 2)
  = Some (Raise (Exception "OverflowError" "timestamp too large to convert to C _PyTime_t"),
          2%nat, []).
Proof. vm_compute. reflexivity. Qed.

(** C6 against the code: with [max_retries = 1] a call that keeps being
    throttled is made three times, the first call and two retries, before
    the error is raised; two turns of the loop do not finish. *)
Theorem one_retry_allowed_two_made :
  summary (run one_retry always_throttled 2) = None /\
  exists slept,
    summary (run one_retry always_throttled 3)
    = Some (Raise throttled, 3%nat, [EvSleep slept]) /\
    3%nat <> Z.to_nat (max_retries one_retry + 1).
Proof.
  split; [vm_compute; reflexivity|].
  exists (PyFloat four_tenths). split; [vm_compute; reflexivity|].
  vm_compute. discriminate.
Qed.

(** C7 against the code: a proxy built with [added_error_codes = ["Foo"]]
    has that list extended in place with the built-in table when one of the
    client's operations is looked up on it. *)
Theorem method_lookup_extends_added_codes :
  configuration proxy proxy_state
  = (PyFloat two_tenths, 3, PyInt 2, PyFloat half, 0, ["Foo"%string], []) /\
  configuration proxy (__getattr__ proxy "list_buckets" proxy_state).2
  = (PyFloat two_tenths, 3, PyInt 2, PyFloat half, 0,
     "Foo"%string :: DEFAULT_RETRY_ERROR_CODES, []).
Proof. split; vm_compute; reflexivity. Qed.

(** The list is the caller's own object, and a proxy derived with
    [with_options] holds the same object: a lookup on the derived proxy
    extends the list of the proxy it came from. *)
Example derived_proxy_shares_added_codes :
  let child := (with_options proxy nothing_set proxy_state).1 in
  let s1 := (with_options proxy nothing_set proxy_state).2 in
  _added_backoff_error_codes child = _added_backoff_error_codes proxy /\
  read (heap (__getattr__ child "list_buckets" s1).2) (_added_backoff_error_codes proxy)
  = "Foo"%string :: DEFAULT_RETRY_ERROR_CODES.
Proof. split; vm_compute; reflexivity. Qed.

(** C8 against the code: [with_options(interval_seconds=0, max_retries=0,
    jitter=0)] on a proxy with 0.2, 3 and 0.5 gives a proxy with 0.2, 3 and
    0.5: a zero is taken for an override left unset. *)
Theorem zero_override_is_taken_as_unset :
  let child := (with_options proxy zeroes proxy_state).1 in
  ov_max_retries zeroes = Some 0 /\
  (_interval_seconds child, _max_retries child, _jitter child)
  = (PyFloat two_tenths, 3, PyFloat half).
Proof. split; vm_compute; reflexivity. Qed.

(** * The further properties, at the scenarios *)

(** The always throttled operation under the default options. *)
Lemma no_sleep_after_the_last_call_witness :
  exists r s',
    retry_loop draw pow sleep 5 throttled_func tt 0 throttled_state = Some (r, s') /\
    exists mid, log s' = EvCall :: mid ++ log throttled_state /\
                (length (sleeps mid) <= calls mid)%nat.
Proof.
  name_the_run Hrun. eexists _, _. split; [reflexivity|].
  exact (no_sleep_after_the_last_call draw pow sleep _ _ _ _ _ _ _ Hrun).
Defined.

(** The operation that fails once and then answers 1. *)
Lemma results_come_from_the_last_call_witness :
  exists r s',
    retry_loop draw pow sleep 2 once_func tt 0 once_state = Some (r, s') /\
    match r with
    | Return (PyVal v) => exists w, f once_func tt w = (Return (PyVal v), world s')
    | Raise (ClientError e) => exists w, f once_func tt w = (Raise (ClientError e), world s')
    | _ => True
    end.
Proof.
  name_the_run Hrun. eexists _, _. split; [reflexivity|].
  exact (results_come_from_the_last_call draw pow sleep _ _ _ _ _ _ _ Hrun).
Defined.


(** [max_retries = -1]: the throttled operation is called once. *)
Lemma negative_max_retries_witness :
  max_retries (opts impatient_func) < 0 /\
  ("ThrottlingException"%string ∉ read (heap impatient_state) (ignore_on impatient_func)) /\
  call_retry_func draw pow sleep 1 impatient_func tt impatient_state
  = Some (Raise throttled, record EvCall (set_world 1%nat impatient_state)).
Proof.
  assert (Hneg : max_retries (opts impatient_func) < 0) by (vm_compute; reflexivity).
  assert (Hign : "ThrottlingException"%string
                 ∉ read (heap impatient_state) (ignore_on impatient_func))
    by given_non_member.
  assert (Hcall : fails_with impatient_func tt impatient_state throttling 1%nat)
    by reflexivity.
  assert (Hcode : has_code throttling "ThrottlingException") by (by eexists).
  repeat (split; [assumption|]).
  exact (negative_max_retries_never_retries draw pow sleep impatient_func tt impatient_state
           _ 1%nat "ThrottlingException" 0%nat Hneg Hcall Hcode Hign).
Defined.

(** A client error without ["Error"], and one whose ["Error"] has no
    ["Code"], each with three retries left. *)
Lemma missing_code_witness :
  f (deco defaults always_bare empty_state).1 tt
    (world (deco defaults always_bare empty_state).2)
  = (Raise (ClientError bare_error), 1%nat) /\
  response_Error bare_error = None /\
  f (deco defaults always_codeless empty_state).1 tt
    (world (deco defaults always_codeless empty_state).2)
  = (Raise (ClientError codeless_error), 1%nat) /\
  response_Error codeless_error
  = Some {| Code := None; Message := Some "no code"%string |} /\
  retry_loop draw pow sleep 1 (deco defaults always_bare empty_state).1 tt 0
    (deco defaults always_bare empty_state).2
  = Some (Raise (Exception "KeyError" "Error"),
          record EvCall (set_world 1%nat (deco defaults always_bare empty_state).2)) /\
  retry_loop draw pow sleep 1 (deco defaults always_codeless empty_state).1 tt 0
    (deco defaults always_codeless empty_state).2
  = Some (Raise (Exception "KeyError" "Code"),
          record EvCall (set_world 1%nat (deco defaults always_codeless empty_state).2)).
Proof.
  assert (Hbare : f (deco defaults always_bare empty_state).1 tt
                    (world (deco defaults always_bare empty_state).2)
                  = (Raise (ClientError bare_error), 1%nat)) by reflexivity.
  assert (Hnone : response_Error bare_error = None) by reflexivity.
  assert (Hcodeless : f (deco defaults always_codeless empty_state).1 tt
                        (world (deco defaults always_codeless empty_state).2)
                      = (Raise (ClientError codeless_error), 1%nat)) by reflexivity.
  assert (Hsome : response_Error codeless_error
                  = Some {| Code := None; Message := Some "no code"%string |})
    by reflexivity.
  repeat (split; [assumption|]).
  split.
  - exact (proj1 (missing_code_raises_KeyError draw pow sleep _ tt 0 _ bare_error
                    1%nat 0%nat Hbare) Hnone).
  - exact (proj2 (missing_code_raises_KeyError draw pow sleep _ tt 0 _ codeless_error
                    1%nat 0%nat Hcodeless) _ Hsome eq_refl).
Defined.

(** A jitter of 3 and draws of 0.0: the first delay is [0.2 * 2 * (1 - 3)],
    which is -0.8, and [time.sleep] refuses it with [ValueError].  And
    [interval_seconds = 0.0] at [_attempts = 1024], where the product
    raises [OverflowError]. *)
Lemma failed_pause_witness :
  fails_with wild_func tt wild_state throttling 1%nat /\
  "ThrottlingException"%string ∈ read (heap wild_state) (retry_on wild_func) /\
  ("ThrottlingException"%string ∉ read (heap wild_state) (ignore_on wild_func)) /\
  max_retries_before_backoff (opts wild_func) < 0 <= max_retries (opts wild_func) /\
  sleep_time low_draw pow (opts wild_func) 0 1%nat
  = (inr (PyFloat (S754_finite true 7205759403792794 (-53))), 1%nat) /\
  sleep (PyFloat (S754_finite true 7205759403792794 (-53))) 1%nat
  = inl ("ValueError"%string, "sleep length must be non-negative"%string) /\
  fails_with overflow_func tt overflow_state throttling 1%nat /\
  "ThrottlingException"%string ∈ read (heap overflow_state) (retry_on overflow_func) /\
  ("ThrottlingException"%string ∉ read (heap overflow_state) (ignore_on overflow_func)) /\
  max_retries_before_backoff (opts overflow_func) < 1024 <= max_retries (opts overflow_func) /\
  sleep_time draw pow (opts overflow_func) 1024 1%nat
  = (inl (Exception "OverflowError" "int too large to convert to float"), 1%nat) /\
  retry_loop low_draw pow sleep 1 wild_func tt 0 wild_state
  = Some (Raise (Exception "ValueError" "sleep length must be non-negative"),
          record EvCall (set_world 1%nat wild_state)) /\
  retry_loop draw pow sleep 1 overflow_func tt 1024 overflow_state
  = Some (Raise (Exception "OverflowError" "int too large to convert to float"),
          record EvCall (set_world 1%nat overflow_state)).
Proof.
  assert (Hcode : has_code throttling "ThrottlingException") by (by eexists).
  assert (Hcall : fails_with wild_func tt wild_state throttling 1%nat) by reflexivity.
  assert (Hret : "ThrottlingException"%string ∈ read (heap wild_state) (retry_on wild_func))
    by given_member.
  assert (Hign : "ThrottlingException"%string ∉ read (heap wild_state) (ignore_on wild_func))
    by given_non_member.
  assert (Ha : max_retries_before_backoff (opts wild_func) < 0 <= max_retries (opts wild_func))
    by (split; vm_compute; [reflexivity | discriminate]).
  assert (Hd : sleep_time low_draw pow (opts wild_func) 0 1%nat
               = (inr (PyFloat (S754_finite true 7205759403792794 (-53))), 1%nat))
    by (vm_compute; reflexivity).
  assert (Hs : sleep (PyFloat (S754_finite true 7205759403792794 (-53))) 1%nat
               = inl ("ValueError"%string, "sleep length must be non-negative"%string))
    by (vm_compute; reflexivity).
  assert (Hcall' : fails_with overflow_func tt overflow_state throttling 1%nat)
    by reflexivity.
  assert (Hret' : "ThrottlingException"%string
                  ∈ read (heap overflow_state) (retry_on overflow_func)) by given_member.
  assert (Hign' : "ThrottlingException"%string
                  ∉ read (heap overflow_state) (ignore_on overflow_func))
    by given_non_member.
  assert (Ha' : max_retries_before_backoff (opts overflow_func) < 1024
                <= max_retries (opts overflow_func))
    by (split; vm_compute; [reflexivity | discriminate]).
  assert (Hd' : sleep_time draw pow (opts overflow_func) 1024 1%nat
                = (inl (Exception "OverflowError" "int too large to convert to float"),
                   1%nat)) by (vm_compute; reflexivity).
  repeat (split; [assumption|]).
  split.
  - exact (proj2 (failed_pause_ends_the_call low_draw pow sleep wild_func tt 0 wild_state
                    throttling 1%nat "ThrottlingException" 0%nat
                    Hcall Hcode Hret Hign Ha) _ _ _ Hd Hs).
  - exact (proj1 (failed_pause_ends_the_call draw pow sleep overflow_func tt 1024
                    overflow_state throttling 1%nat "ThrottlingException" 0%nat
                    Hcall' Hcode Hret' Hign' Ha') _ _ Hd').
Defined.

(** Three retries allowed, none with backoff: five calls and no sleep. *)
Lemma no_backoff_witness :
  max_retries (opts patient_func) <= max_retries_before_backoff (opts patient_func) /\
  exists r s',
    retry_loop draw pow sleep 5 patient_func tt 0 patient_state = Some (r, s') /\
    sleeps (log s') = sleeps (log patient_state).
Proof.
  assert (Hle : max_retries (opts patient_func)
                <= max_retries_before_backoff (opts patient_func))
    by (vm_compute; discriminate).
  split; [assumption|].
  name_the_run Hrun. eexists _, _. split; [reflexivity|].
  exact (no_backoff_means_no_sleep draw pow sleep _ _ _ _ _ _ _ Hle Hrun).
Defined.

(** The three sleeps of the always throttled operation under the default
    options. *)
Lemma every_sleep_witness :
  exists r s',
    retry_loop draw pow sleep 5 throttled_func tt 0 throttled_state = Some (r, s') /\
    exists new, log s' = new ++ log throttled_state /\
      forall d, EvSleep d ∈ new ->
        exists k w w1 w2,
          0 <= k <= max_retries (opts throttled_func) /\
          max_retries_before_backoff (opts throttled_func) < k /\
          sleep_time draw pow (opts throttled_func) k w = (inr d, w1) /\
          sleep d w1 = inr w2.
Proof.
  name_the_run Hrun. eexists _, _. split; [reflexivity|].
  exact (every_sleep_is_a_computed_delay draw pow sleep _ _ _ _ _ _ _ Hrun).
Defined.

(** The caller's code ["Foo"], added through the list at location 1, with
    no ignore list. *)
Lemma added_codes_witness :
  added_error_codes with_foo = Some 1%nat /\
  "Foo"%string ∈ read (heap caller_state) 1%nat /\
  (forall li, ignore_error_codes with_foo = Some li ->
     li <> 1%nat /\ "Foo"%string ∉ read (heap caller_state) li) /\
  always_foo tt 0%nat = (Raise (ClientError foo_error), 1%nat) /\
  has_code foo_error "Foo" /\
  "Foo"%string ∈ read (heap (deco with_foo always_foo caller_state).2)
                     (retry_on (deco with_foo always_foo caller_state).1) /\
  ("Foo"%string ∉ read (heap (deco with_foo always_foo caller_state).2)
                      (ignore_on (deco with_foo always_foo caller_state).1)) /\
  loop_body draw pow sleep (deco with_foo always_foo caller_state).1 tt 0
    (deco with_foo always_foo caller_state).2
  = Retrying 1
      (record EvCall (set_world 1%nat (deco with_foo always_foo caller_state).2)).
Proof.
  assert (Hadd : added_error_codes with_foo = Some 1%nat) by reflexivity.
  assert (Hin : "Foo"%string ∈ read (heap caller_state) 1%nat) by given_member.
  assert (Hign : forall li, ignore_error_codes with_foo = Some li ->
                   li <> 1%nat /\ "Foo"%string ∉ read (heap caller_state) li)
    by (intros li Hli; discriminate).
  assert (Hcall : always_foo tt 0%nat = (Raise (ClientError foo_error), 1%nat))
    by reflexivity.
  assert (Hcode : has_code foo_error "Foo") by (by eexists).
  repeat (split; [assumption|]).
  pose proof (added_codes_are_retried draw pow sleep with_foo always_foo caller_state
                1%nat "Foo" Hadd Hin Hign) as (Hmem & Hnot & Hturn).
  split; [exact Hmem|]. split; [exact Hnot|].
  assert (Hmax : 0 <= max_retries with_foo) by (vm_compute; discriminate).
  assert (Hbelow : 0 <= max_retries_before_backoff with_foo) by (vm_compute; discriminate).
  exact (proj1 (Hturn tt 0 (deco with_foo always_foo caller_state).2 foo_error 1%nat
                  eq_refl Hcall Hcode Hmax) Hbelow).
Defined.




(** The module's table itself given as [added_error_codes]: a lookup
    appends the table to itself, and it holds 26 codes afterwards. *)
Example table_given_as_added_codes_doubles :
  read (heap (__getattr__ table_proxy "list_buckets" table_state).2) table
  = DEFAULT_RETRY_ERROR_CODES ++ DEFAULT_RETRY_ERROR_CODES.
Proof. vm_compute. reflexivity. Qed.

(** [list_buckets] looked up on the proxy built without lists: its ignore
    list, at location 2, is what it was. *)
Lemma lookup_without_added_codes_witness :
  read (heap plain_state) (_added_backoff_error_codes plain_proxy) = [] /\
  is_Some (heap plain_state !! 2%nat) /\
  read (heap (__getattr__ plain_proxy "list_buckets" plain_state).2) 2%nat
  = read (heap plain_state) 2%nat.
Proof.
  assert (Hempty : read (heap plain_state) (_added_backoff_error_codes plain_proxy) = [])
    by (vm_compute; reflexivity).
  assert (Hl : is_Some (heap plain_state !! 2%nat)) by (exists []; vm_compute; reflexivity).
  repeat (split; [assumption|]).
  exact (lookup_without_added_codes_changes_no_list plain_proxy "list_buckets" plain_state
           2%nat Hempty Hl).
Defined.

(** [with_options(max_retries=7)] alone, and five overrides at once. *)
Lemma nonzero_overrides_witness :
  ov_max_retries seven_retries = Some 7 /\ 7 <> 0 /\
  ov_interval_seconds all_set = Some (PyInt 1) /\ truthy_number (PyInt 1) = true /\
  ov_jitter all_set = Some (PyFloat one_tenth) /\ truthy_number (PyFloat one_tenth) = true /\
  _max_retries (with_options proxy seven_retries proxy_state).1 = 7 /\
  _interval_seconds (with_options proxy all_set proxy_state).1 = PyInt 1 /\
  _jitter (with_options proxy all_set proxy_state).1 = PyFloat one_tenth /\
  _client (with_options proxy seven_retries proxy_state).1 = _client proxy.
Proof.
  assert (Hm : ov_max_retries seven_retries = Some 7) by reflexivity.
  assert (Hm0 : 7 <> 0) by discriminate.
  assert (Hi : ov_interval_seconds all_set = Some (PyInt 1)) by reflexivity.
  assert (Hi0 : truthy_number (PyInt 1) = true) by reflexivity.
  assert (Hj : ov_jitter all_set = Some (PyFloat one_tenth)) by reflexivity.
  assert (Hj0 : truthy_number (PyFloat one_tenth) = true) by reflexivity.
  repeat (split; [assumption|]).
  pose proof (nonzero_overrides_are_taken proxy seven_retries proxy_state)
    as (_ & Hseven & _ & _ & _ & Hclient).
  pose proof (nonzero_overrides_are_taken proxy all_set proxy_state)
    as (Hinterval & _ & _ & Hjitter & _).
  split; [exact (Hseven 7 Hm Hm0)|].
  split; [exact (Hinterval _ Hi Hi0)|].
  split; [exact (Hjitter _ Hj Hj0)|].
  exact Hclient.
Defined.

(** [with_options(ignore_error_codes=[])] on the proxy that ignores
    ["RequestLimitExceeded"]. *)
Lemma empty_ignore_override_witness :
  ov_ignore_error_codes ignore_nothing = Some 5%nat /\
  read (heap with_empty_list) 5%nat = [] /\
  read (heap (with_options tolerant ignore_nothing with_empty_list).2)
       (_ignore_errors (with_options tolerant ignore_nothing with_empty_list).1)
  = read (heap with_empty_list) (_ignore_errors tolerant) /\
  read (heap with_empty_list) (_ignore_errors tolerant) = ["RequestLimitExceeded"%string].
Proof.
  assert (Hov : ov_ignore_error_codes ignore_nothing = Some 5%nat) by reflexivity.
  assert (Hempty : read (heap with_empty_list) 5%nat = []) by (vm_compute; reflexivity).
  repeat (split; [assumption|]).
  split; [|vm_compute; reflexivity].
  exact (empty_ignore_override_is_taken_as_unset tolerant ignore_nothing with_empty_list
           5%nat Hov Hempty).
Defined.

(** The proxy built with [["Foo"]], derived with nothing set. *)
Lemma same_list_witness :
  read (heap proxy_state)
       (or_list (heap proxy_state) (ov_added_error_codes nothing_set)
                (_added_backoff_error_codes proxy)) <> [] /\
  _added_backoff_error_codes (with_options proxy nothing_set proxy_state).1
  = or_list (heap proxy_state) (ov_added_error_codes nothing_set)
            (_added_backoff_error_codes proxy).
Proof.
  assert (Hne : read (heap proxy_state)
                  (or_list (heap proxy_state) (ov_added_error_codes nothing_set)
                           (_added_backoff_error_codes proxy)) <> [])
    by (vm_compute; discriminate).
  split; [assumption|].
  exact (derived_proxy_holds_the_same_list proxy nothing_set proxy_state Hne).
Defined.

(** A proxy built with the default options. *)
Lemma proxy_without_lists_witness :
  added_error_codes defaults = None /\ ignore_error_codes defaults = None /\
  let p := (__init__ s3 defaults empty_state).1 in
  let s1 := (__init__ s3 defaults empty_state).2 in
  heap empty_state !! _added_backoff_error_codes p = None /\
  heap empty_state !! _ignore_errors p = None /\
  _added_backoff_error_codes p <> _ignore_errors p /\
  heap s1 !! _added_backoff_error_codes p = Some [] /\
  heap s1 !! _ignore_errors p = Some [] /\
  forall l, read (heap s1) l = read (heap empty_state) l.
Proof.
  split; [reflexivity|]. split; [reflexivity|].
  exact (proxy_without_lists_gets_its_own s3 defaults empty_state eq_refl eq_refl).
Defined.

